(** * OTP verification and session issuance: a model of the API routes

    A shallow embedding of the route handlers of the authentication
    application:

    - [generateOTP]                    (lib/otp/genarate-otp)
    - [POST_signin]                    (app/api/auth/signin/route.ts)
    - [POST_signout]                   (app/api/auth/signout)
    - [POST_verification]              (app/api/auth/verification/[email]/[type])
    - [DELETE_account]                 (account deletion route)
    - [POST_resend_otp]                (app/api/auth/resend-otp)
    - [POST_forgot_password]           (app/api/auth/forgot-password)
    - [GET_me]                         (app/api/auth/me/route.ts)
    - [GET_profile]                    (app/api/profile/route.ts)
    - [middleware]                     (middleware.ts)

    The document database is a list of user documents; every handler is a
    function from the world before the request to a response and the world
    after it.  The world also records the store writes, the mails handed to
    the mailer and the artificial delay awaited, in the order the handler
    performs them.  What the handlers obtain from libraries and from the
    runtime (bcrypt, jsonwebtoken, the regular-expression engine of the
    database, Zod's e-mail pattern, ...) is the interface [Platform].  The
    connection to the store is taken to be established; [GET_me_on] also
    covers its rejection, which that route answers by clearing the cookie. *)

From Stdlib Require Import ZArith NArith Nnat List String Ascii Bool Lia.
From Stdlib Require Import DecimalString DecimalFacts DecimalPos DecimalN.
Import ListNotations.
Open Scope string_scope.
Open Scope Z_scope.
Set Warnings "-register-all".

(* ------------------------------------------------------------------ *)
(** ** Values exchanged with clients *)

(** Parsed JSON, for request and response bodies.  An object is the list
    of its own properties. *)
Inductive json : Type :=
| JNull
| JBool (b : bool)
| JNum (n : Z)
| JStr (s : string)
| JArr (items : list json)
| JObj (fields : list (string * json)).

(** Property access [obj.key]; [None] is JavaScript's [undefined]. *)
Fixpoint get_field (key : string) (fields : list (string * json)) : option json :=
  match fields with
  | [] => None
  | (k, v) :: rest => if (k =? key)%string then Some v else get_field key rest
  end.

Definition prop (key : string) (v : json) : option json :=
  match v with
  | JObj fields => get_field key fields
  | _ => None
  end.

(** The length of a string, in code units. *)
Definition strlen (s : string) : Z := Z.of_nat (String.length s).

(** Truthiness of an optional string: [undefined], [null] and the empty
    string are falsy. *)
Definition truthy (o : option string) : bool :=
  match o with
  | Some s => negb (s =? "")%string
  | None => false
  end.

(** [o || d] for an optional string. *)
Definition or_else (o : option string) (d : string) : string :=
  match o with
  | Some s => if (s =? "")%string then d else s
  | None => d
  end.

(** [o || null], as a JSON value. *)
Definition or_null (o : option string) : json :=
  match o with
  | Some s => if (s =? "")%string then JNull else JStr s
  | None => JNull
  end.

Record Cookie : Type := {
  c_name : string;
  c_value : string;
  httpOnly : bool;
  secure : bool;
  sameSite : string;
  path : string;
  maxAge : option Z;      (* seconds *)
  expires : option Z      (* milliseconds since the epoch *)
}.

Record Response : Type := {
  status : Z;
  body : json;
  cookies : list Cookie
}.

(** [NextResponse.json(body, { status })] *)
Definition NextResponse_json (b : json) (st : Z) : Response :=
  {| status := st; body := b; cookies := [] |}.

(** [response.cookies.set(name, ...)] replaces a cookie of the same name. *)
Definition cookies_set (r : Response) (c : Cookie) : Response :=
  {| status := status r;
     body := body r;
     cookies :=
       filter (fun c' => negb (c_name c' =? c_name c)%string) (cookies r) ++ [c] |}.

Definition error_body (msg : string) : json := JObj [("error", JStr msg)].
Definition message_body (msg : string) : json := JObj [("message", JStr msg)].

(* ------------------------------------------------------------------ *)
(** ** The user collection *)

(** An [ObjectId] is represented by its hexadecimal text, so that
    [_id.toString()] is the identity. *)
Definition ObjectId : Type := string.

(** Dates are milliseconds since the epoch. *)
Definition Date : Type := Z.

Record User : Type := {
  _id : ObjectId;
  email : string;
  password : option string;      (* bcrypt hash; absent for OAuth accounts *)
  name : option string;
  role : option string;
  emailVerified : bool;
  otp : option string;
  otpExpiry : option Date;
  createdAt : option Date;
  updatedAt : option Date;
  lastLogin : option Date
}.

(** One assignment of a [$set] document. *)
Inductive FieldSet : Type :=
| set_emailVerified (b : bool)
| set_otp (o : option string)
| set_otpExpiry (o : option Date)
| set_password (h : string)
| set_lastLogin (t : Date)
| set_updatedAt (t : Date).

Definition apply_set (u : User) (f : FieldSet) : User :=
  match f with
  | set_emailVerified b =>
      {| _id := _id u; email := email u; password := password u; name := name u;
         role := role u; emailVerified := b; otp := otp u; otpExpiry := otpExpiry u;
         createdAt := createdAt u; updatedAt := updatedAt u; lastLogin := lastLogin u |}
  | set_otp o =>
      {| _id := _id u; email := email u; password := password u; name := name u;
         role := role u; emailVerified := emailVerified u; otp := o;
         otpExpiry := otpExpiry u;
         createdAt := createdAt u; updatedAt := updatedAt u; lastLogin := lastLogin u |}
  | set_otpExpiry o =>
      {| _id := _id u; email := email u; password := password u; name := name u;
         role := role u; emailVerified := emailVerified u; otp := otp u;
         otpExpiry := o;
         createdAt := createdAt u; updatedAt := updatedAt u; lastLogin := lastLogin u |}
  | set_password h =>
      {| _id := _id u; email := email u; password := Some h; name := name u;
         role := role u; emailVerified := emailVerified u; otp := otp u;
         otpExpiry := otpExpiry u;
         createdAt := createdAt u; updatedAt := updatedAt u; lastLogin := lastLogin u |}
  | set_lastLogin t =>
      {| _id := _id u; email := email u; password := password u; name := name u;
         role := role u; emailVerified := emailVerified u; otp := otp u;
         otpExpiry := otpExpiry u;
         createdAt := createdAt u; updatedAt := updatedAt u; lastLogin := Some t |}
  | set_updatedAt t =>
      {| _id := _id u; email := email u; password := password u; name := name u;
         role := role u; emailVerified := emailVerified u; otp := otp u;
         otpExpiry := otpExpiry u;
         createdAt := createdAt u; updatedAt := Some t; lastLogin := lastLogin u |}
  end.

(** The effect of [{ $set: sets }] on one document. *)
Definition apply_sets (u : User) (sets : list FieldSet) : User :=
  fold_left apply_set sets u.

(** A write sent to the collection. *)
Inductive Write : Type :=
| UpdateOne (id : ObjectId) (sets : list FieldSet)
| DeleteOne (id : ObjectId).

(** A mail handed to the mailer (lib/email/send-otp.ts). *)
Inductive Mail : Type :=
| OTPEmail (to : string) (code : string) (type : string)
| VerificationSuccessEmail (to : string) (name : string)
| PasswordResetSuccessEmail (to : string) (name : string).

(** [findOne({ _id })] *)
Definition findOne_id (id : ObjectId) (docs : list User) : option User :=
  find (fun u => (_id u =? id)%string) docs.

(** [updateOne({ _id }, { $set })]: the first document with that id. *)
Fixpoint updateOne_docs (id : ObjectId) (sets : list FieldSet) (docs : list User)
  : list User :=
  match docs with
  | [] => []
  | u :: rest =>
      if (_id u =? id)%string then apply_sets u sets :: rest
      else u :: updateOne_docs id sets rest
  end.

(** [deleteOne({ _id })]: the remaining documents and [deletedCount]. *)
Fixpoint deleteOne_docs (id : ObjectId) (docs : list User) : list User * Z :=
  match docs with
  | [] => ([], 0)
  | u :: rest =>
      if (_id u =? id)%string then (rest, 1)
      else let '(rest', n) := deleteOne_docs id rest in (u :: rest', n)
  end.

(** The world of a request: the collection, and what the handlers have
    done so far (most recent first). *)
Record World : Type := {
  users : list User;
  writes : list Write;
  outbox : list Mail;
  slept : Z               (* milliseconds of artificial delay awaited *)
}.

Definition updateOne (id : ObjectId) (sets : list FieldSet) (w : World) : World :=
  {| users := updateOne_docs id sets (users w);
     writes := UpdateOne id sets :: writes w;
     outbox := outbox w;
     slept := slept w |}.

Definition deleteOne (id : ObjectId) (w : World) : Z * World :=
  let '(docs, n) := deleteOne_docs id (users w) in
  (n, {| users := docs;
         writes := DeleteOne id :: writes w;
         outbox := outbox w;
         slept := slept w |}).

(** [await new Promise(resolve => setTimeout(resolve, ms))] *)
Definition sleep (ms : Z) (w : World) : World :=
  {| users := users w; writes := writes w; outbox := outbox w;
     slept := slept w + ms |}.

(* ------------------------------------------------------------------ *)
(** ** Configuration and the surroundings of one request *)

Record Config : Type := {
  JWT_SECRET : option string;        (* process.env.JWT_SECRET *)
  production : bool                  (* process.env.NODE_ENV === "production" *)
}.

(** What one request reads from its surroundings: the clock, the secure
    random source, the salt bcrypt draws, and whether the mailer delivers
    (a mail function that throws is [false]). *)
Record Ambient : Type := {
  now : Date;
  randomBytes4 : option (Byte.byte * Byte.byte * Byte.byte * Byte.byte);
  salt : string;
  delivers : Mail -> bool
}.

(** A send inside [try { await send(...) } catch { log }]: the mail is
    recorded, and the result tells whether the call returned. *)
Definition sendMail (amb : Ambient) (m : Mail) (w : World) : bool * World :=
  (delivers amb m,
   {| users := users w; writes := writes w; outbox := m :: outbox w;
      slept := slept w |}).

(** The decoded payload of a session token. *)
Record UserSession : Type := {
  userId : option string;
  s_email : option string;
  s_name : option string;
  s_role : option string
}.

(** Libraries and runtime functions the handlers call. *)
Class Platform : Type := {
  (** [new RegExp(pattern, "i").test(s)], as the database evaluates
      [{ $regex: pattern, $options: "i" }] *)
  regex_test_i : string -> string -> bool;
  (** whether the database accepts the pattern as a regular expression; a
      query with a [$regex] it does not accept throws *)
  regex_valid : string -> bool;
  (** [decodeURIComponent]; [None] when it throws *)
  decodeURIComponent : string -> option string;
  encodeURIComponent : string -> string;
  toLowerCase : string -> string;
  (** [bcrypt.compare(plain, hash)] *)
  bcrypt_compare : string -> string -> bool;
  (** [bcrypt.hash(plain, rounds)] with the salt drawn for this call *)
  bcrypt_hash : string -> Z -> string -> string;
  (** [jwt.sign(payload, secret, { expiresIn })] at a given time *)
  jwt_sign : UserSession -> string -> string -> Date -> string;
  (** [jwt.verify(token, secret)] at a given time; [None] when it throws *)
  jwt_verify : string -> string -> Date -> option UserSession;
  (** [new ObjectId(text)]; [None] when it throws *)
  ObjectId_new : string -> option ObjectId;
  (** Zod's test behind [z.string().email()] *)
  zod_email : string -> bool;
  (** Zod's default message for a value of the wrong type ([None] is a
      missing property) *)
  zod_invalid_type : string -> option json -> string
}.

(* ------------------------------------------------------------------ *)
(** ** generateOTP *)

(** [parseInt(bytes.toString("hex"), 16)] for four bytes. *)
Definition parseInt_hex4 (b : Byte.byte * Byte.byte * Byte.byte * Byte.byte) : Z :=
  let '(b0, b1, b2, b3) := b in
  ((Z.of_N (Byte.to_N b0) * 256 + Z.of_N (Byte.to_N b1)) * 256
   + Z.of_N (Byte.to_N b2)) * 256 + Z.of_N (Byte.to_N b3).

(** [n.toString()] for a non-negative integer. *)
Definition toString (n : Z) : string :=
  NilZero.string_of_uint (N.to_uint (Z.to_N n)).

Fixpoint repeat_char (c : ascii) (n : nat) : string :=
  match n with
  | O => ""
  | S k => String c (repeat_char c k)
  end.

(** [s.padStart(len, c)] for a one-character filler. *)
Definition padStart (len : nat) (c : ascii) (s : string) : string :=
  (repeat_char c (len - String.length s) ++ s)%string.

(** [generateOTP()]; [None] when the random source throws. *)
Definition generateOTP (amb : Ambient) : option string :=
  match randomBytes4 amb with
  | None => None
  | Some bytes =>
      let n := parseInt_hex4 bytes mod 1000000 in
      Some (padStart 6 "0"%char (toString n))
  end.

(* ------------------------------------------------------------------ *)
(** ** Request validation (Zod) *)

(** The result of [schema.safeParse(body)]: the parsed data, or the
    message of the first issue, [error.errors[0].message]. *)
Inductive SafeParse (A : Type) : Type :=
| success (data : A)
| failure (message : string).
Arguments success {A} data.
Arguments failure {A} message.

Section Handlers.
Context {P : Platform}.

(** [z.string()] *)
Definition z_string (v : option json) : SafeParse string :=
  match v with
  | Some (JStr s) => success s
  | _ => failure (zod_invalid_type "string" v)
  end.

(** [z.string().email(msg)] *)
Definition z_string_email (msg : string) (v : option json) : SafeParse string :=
  match z_string v with
  | success s => if zod_email s then success s else failure msg
  | failure m => failure m
  end.

(** [z.string().min(n, msg)] *)
Definition z_string_min (n : Z) (msg : string) (v : option json) : SafeParse string :=
  match z_string v with
  | success s => if strlen s <? n then failure msg else success s
  | failure m => failure m
  end.

(** [z.string().length(n, msg)] *)
Definition z_string_length (n : Z) (msg : string) (v : option json)
  : SafeParse string :=
  match z_string v with
  | success s => if strlen s =? n then success s else failure msg
  | failure m => failure m
  end.

(** [z.enum(["signup", "password-reset"], { errorMap })] of the resend
    route: the error map replaces the message of an unknown value only. *)
Definition z_enum_type (v : option json) : SafeParse string :=
  match v with
  | Some (JStr s) =>
      if ((s =? "signup") || (s =? "password-reset"))%string then success s
      else failure "Invalid verification type. Must be 'signup' or 'password-reset'."
  | _ => failure (zod_invalid_type "'signup' | 'password-reset'" v)
  end.

(** [otpVerificationSchema = z.object({ otp: z.string().length(6, ...) })] *)
Definition otpVerificationSchema (b : json) : SafeParse string :=
  match b with
  | JObj _ => z_string_length 6 "OTP must be 6 digits." (prop "otp" b)
  | _ => failure (zod_invalid_type "object" (Some b))
  end.

(** [passwordResetBodySchema = z.object({ password: userSchema.shape.password })] *)
Definition passwordResetBodySchema (b : json) : SafeParse string :=
  match b with
  | JObj _ =>
      z_string_min 6 "Password must be at least 6 characters" (prop "password" b)
  | _ => failure (zod_invalid_type "object" (Some b))
  end.

(** [signinSchema]: the issues come in the order of the keys. *)
Definition signinSchema (b : json) : SafeParse (string * string) :=
  match b with
  | JObj _ =>
      match z_string_email "Invalid email format." (prop "email" b),
            z_string_min 6 "Password must be at least 6 characters long."
              (prop "password" b) with
      | success e, success p => success (e, p)
      | failure m, _ => failure m
      | success _, failure m => failure m
      end
  | _ => failure (zod_invalid_type "object" (Some b))
  end.

(** [resendOtpSchema] *)
Definition resendOtpSchema (b : json) : SafeParse (string * string) :=
  match b with
  | JObj _ =>
      match z_string_email "Invalid email format." (prop "email" b),
            z_enum_type (prop "type" b) with
      | success e, success t => success (e, t)
      | failure m, _ => failure m
      | success _, failure m => failure m
      end
  | _ => failure (zod_invalid_type "object" (Some b))
  end.

(** [forgotPasswordSchema] *)
Definition forgotPasswordSchema (b : json) : SafeParse string :=
  match b with
  | JObj _ => z_string_email "Invalid email format." (prop "email" b)
  | _ => failure (zod_invalid_type "object" (Some b))
  end.

(* ------------------------------------------------------------------ *)
(** ** Shared pieces of the routes *)

(** Whether [findOne({ email: { $regex: `^${email}$`, $options: "i" } })]
    throws: the address is pasted into the pattern as it is, and the
    database refuses a pattern that is not a regular expression, whatever the
    collection holds. *)
Definition findOne_throws (e : string) : bool :=
  negb (regex_valid ("^" ++ e ++ "$")).

(** The document that [findOne] returns: the first one whose address the
    pattern matches.  There is none when the query throws. *)
Definition findOne_email (e : string) (docs : list User) : option User :=
  if regex_valid ("^" ++ e ++ "$") then
    find (fun u => regex_test_i ("^" ++ e ++ "$") (email u)) docs
  else None.

(** The secret when [!JWT_SECRET] is false. *)
Definition defined_secret (cfg : Config) : option string :=
  if truthy (JWT_SECRET cfg) then JWT_SECRET cfg else None.

(** The payload both [generateJWT] and the sign-in route sign. *)
Definition session_of (user : User) : UserSession :=
  {| userId := Some (_id user);
     s_email := Some (email user);
     s_name := if truthy (name user) then name user else None;
     s_role := Some (or_else (role user) "user") |}.

(** [generateJWT(user)], signed with an [expiresIn] of seven days. *)
Definition generateJWT (secret : string) (amb : Ambient) (user : User) : string :=
  jwt_sign (session_of user) secret "7d" (now amb).

(** The cookie [setAuthCookie] sets. *)
Definition auth_cookie (cfg : Config) (token : string) : Cookie :=
  {| c_name := "token"; c_value := token; httpOnly := true;
     secure := production cfg; sameSite := "lax"; path := "/";
     maxAge := Some (60 * 60 * 24 * 7); expires := None |}.

Definition setAuthCookie (cfg : Config) (response : Response) (token : string)
  : Response :=
  cookies_set response (auth_cookie cfg token).

(** The cookie that revokes the session: empty value, expiry at the epoch. *)
Definition cleared_cookie (cfg : Config) : Cookie :=
  {| c_name := "token"; c_value := ""; httpOnly := true;
     secure := production cfg; sameSite := "lax"; path := "/";
     maxAge := None; expires := Some 0 |}.

Definition clearAuthCookie (cfg : Config) (response : Response) : Response :=
  cookies_set response (cleared_cookie cfg).

(** The [user] object of the verification responses. *)
Definition user_json (u : User) : json :=
  JObj [("email", JStr (email u));
        ("id", JStr (_id u));
        ("name", or_null (name u));
        ("role", JStr (or_else (role u) "user"));
        ("emailVerified", JBool (emailVerified u))].

(** [new Date(Date.now() + 10 * 60 * 1000)] *)
Definition otp_deadline (amb : Ambient) : Date := now amb + 10 * 60 * 1000.

(* ------------------------------------------------------------------ *)
(** ** POST /api/auth/verification/[email]/[type] *)

Definition invalid_otp_response : Response :=
  NextResponse_json (error_body "Invalid or expired OTP.") 400.

Definition proceed_response : Response :=
  NextResponse_json (message_body "OTP verified. Proceed to set new password.") 200.

Definition same_password_response : Response :=
  NextResponse_json
    (error_body "New password cannot be the same as the old password.") 400.

(** The [$set] of a successful signup verification. *)
Definition verified_sets (amb : Ambient) : list FieldSet :=
  [set_emailVerified true; set_otp None; set_otpExpiry None;
   set_lastLogin (now amb); set_updatedAt (now amb)].

(** The [$set] of a completed password reset. *)
Definition reset_sets (amb : Ambient) (hashedPassword : string) : list FieldSet :=
  [set_password hashedPassword; set_otp None; set_otpExpiry None;
   set_emailVerified true; set_lastLogin (now amb); set_updatedAt (now amb)].

(** The OTP test of the route: true when the request is rejected. *)
Definition otp_rejected (amb : Ambient) (user : User) (submitted : string) : bool :=
  negb (truthy (otp user))
  || match otpExpiry user with None => true | Some _ => false end
  || negb (match otp user with Some o => (o =? submitted)%string | None => false end)
  || match otpExpiry user with Some e => e <? now amb | None => false end.

Definition POST_verification (cfg : Config) (amb : Ambient)
    (rawEmail type : string) (reqBody : option json) (w : World)
  : Response * World :=
  match defined_secret cfg with
  | None => (NextResponse_json (error_body "Server configuration error.") 500, w)
  | Some secret =>
  match decodeURIComponent rawEmail, reqBody with
  | None, _ | _, None =>
      (NextResponse_json (error_body "Internal server error.") 500, w)
  | Some decoded, Some reqJson =>
  let email' := toLowerCase decoded in
  if findOne_throws email' then
    (NextResponse_json (error_body "Internal server error.") 500, w)
  else
  match findOne_email email' (users w) with
  | None => (NextResponse_json (error_body "User not found.") 404, w)
  | Some user =>
  match otpVerificationSchema reqJson with
  | success submitted =>
      if (type =? "signup")%string && emailVerified user then
        let token := generateJWT secret amb user in
        let response :=
          NextResponse_json
            (JObj [("user", user_json user); ("status", JStr "already_verified")])
            200 in
        (setAuthCookie cfg response token, w)
      else if otp_rejected amb user submitted then
        (invalid_otp_response, w)
      else if (type =? "signup")%string then
        let w1 := updateOne (_id user) (verified_sets amb) w in
        let '(_, w2) :=
          sendMail amb (VerificationSuccessEmail email' (or_else (name user) "User"))
            w1 in
        match findOne_id (_id user) (users w2) with
        | None =>
            (NextResponse_json
               (error_body "Failed to retrieve user data after verification.") 500,
             w2)
        | Some updatedUser =>
            let token := generateJWT secret amb updatedUser in
            let response :=
              NextResponse_json (JObj [("user", user_json updatedUser)]) 200 in
            (setAuthCookie cfg response token, w2)
        end
      else if (type =? "password-reset")%string then
        (proceed_response, w)
      else
        (NextResponse_json (error_body "Invalid verification type.") 400, w)
  | failure _ =>
  match passwordResetBodySchema reqJson with
  | success newPassword =>
      if truthy (password user)
         && bcrypt_compare newPassword (or_else (password user) "") then
        (same_password_response, w)
      else
        let hashedPassword := bcrypt_hash newPassword 10 (salt amb) in
        let w1 := updateOne (_id user) (reset_sets amb hashedPassword) w in
        let '(sent, w2) :=
          if negb (emailVerified user) then
            sendMail amb
              (VerificationSuccessEmail email' (or_else (name user) "User")) w1
          else (true, w1) in
        let w3 :=
          if sent then
            snd (sendMail amb
                   (PasswordResetSuccessEmail email' (or_else (name user) "User"))
                   w2)
          else w2 in
        match findOne_id (_id user) (users w3) with
        | None =>
            (NextResponse_json
               (error_body "Failed to retrieve user data after password reset.")
               500,
             w3)
        | Some updatedUser =>
            let token := generateJWT secret amb updatedUser in
            let response :=
              NextResponse_json (JObj [("user", user_json updatedUser)]) 200 in
            (setAuthCookie cfg response token, w3)
        end
  | failure _ =>
      (NextResponse_json
         (error_body "Invalid request. Missing OTP or new password.") 400, w)
  end
  end
  end
  end
  end.

(* ------------------------------------------------------------------ *)
(** ** DELETE (account deletion) *)

Definition invalid_session_response (cfg : Config) : Response :=
  clearAuthCookie cfg
    (NextResponse_json
       (error_body "Invalid or expired session. Please sign in again.") 401).

Definition DELETE_account (cfg : Config) (amb : Ambient)
    (tokenCookie : option string) (w : World) : Response * World :=
  match defined_secret cfg with
  | None => (NextResponse_json (error_body "Server configuration error.") 500, w)
  | Some secret =>
  if negb (truthy tokenCookie) then
    (NextResponse_json (error_body "Authentication required.") 401, w)
  else
  let token := or_else tokenCookie "" in
  match jwt_verify token secret (now amb) with
  | None => (invalid_session_response cfg, w)
  | Some decodedToken =>
  if negb (truthy (userId decodedToken)) then (invalid_session_response cfg, w)
  else
  let userIdToDelete := or_else (userId decodedToken) "" in
  match ObjectId_new userIdToDelete with
  | None =>
      (NextResponse_json
         (error_body "Failed to delete account due to a database issue.") 500, w)
  | Some objectIdToDelete =>
      let '(deletedCount, w1) := deleteOne objectIdToDelete w in
      if deletedCount =? 0 then
        (clearAuthCookie cfg
           (NextResponse_json
              (error_body "Account not found or already deleted.") 404),
         w1)
      else
        (clearAuthCookie cfg
           (NextResponse_json (message_body "Account deleted successfully.") 200),
         w1)
  end
  end
  end.

(* ------------------------------------------------------------------ *)
(** ** POST /api/auth/resend-otp and POST /api/auth/forgot-password *)

Definition resend_response : Response :=
  NextResponse_json
    (message_body "If an account with that email exists, a new OTP has been sent.")
    200.

Definition forgot_response : Response :=
  NextResponse_json
    (message_body
       "If your email is registered, a password reset code has been sent.")
    200.

(** The [$set] that issues a new challenge. *)
Definition issue_sets (amb : Ambient) (newOtp : string) : list FieldSet :=
  [set_otp (Some newOtp); set_otpExpiry (Some (otp_deadline amb));
   set_updatedAt (now amb)].

Definition POST_resend_otp (amb : Ambient) (reqBody : option json) (w : World)
  : Response * World :=
  match reqBody with
  | None => (NextResponse_json (error_body "Internal server error.") 500, w)
  | Some reqJson =>
  match resendOtpSchema reqJson with
  | failure message => (NextResponse_json (error_body message) 400, w)
  | success (email', type) =>
  if findOne_throws email' then
    (NextResponse_json (error_body "Internal server error.") 500, w)
  else
  let user := findOne_email email' (users w) in
  let w1 := sleep 1000 w in
  match user with
  | None => (resend_response, w1)
  | Some user =>
      if (type =? "signup")%string && emailVerified user then (resend_response, w1)
      else
        match generateOTP amb with
        | None => (NextResponse_json (error_body "Internal server error.") 500, w1)
        | Some newOtp =>
            let w2 := updateOne (_id user) (issue_sets amb newOtp) w1 in
            let '(_, w3) := sendMail amb (OTPEmail (email user) newOtp type) w2 in
            (resend_response, w3)
        end
  end
  end
  end.

Definition POST_forgot_password (amb : Ambient) (reqBody : option json) (w : World)
  : Response * World :=
  match reqBody with
  | None =>
      (NextResponse_json
         (error_body "Internal server error. Please try again later.") 500, w)
  | Some reqJson =>
  match forgotPasswordSchema reqJson with
  | failure message => (NextResponse_json (error_body message) 400, w)
  | success email' =>
  if findOne_throws email' then
    (NextResponse_json
       (error_body "Internal server error. Please try again later.") 500, w)
  else
  match findOne_email email' (users w) with
  | None => (forgot_response, w)
  | Some user =>
      match generateOTP amb with
      | None =>
          (NextResponse_json
             (error_body "Internal server error. Please try again later.") 500, w)
      | Some newOtp =>
          let w1 := updateOne (_id user) (issue_sets amb newOtp) w in
          let '(_, w2) :=
            sendMail amb (OTPEmail (email user) newOtp "password-reset") w1 in
          (forgot_response, w2)
      end
  end
  end
  end.

(* ------------------------------------------------------------------ *)
(** ** POST /api/auth/signin and POST /api/auth/signout *)

Definition POST_signin (cfg : Config) (amb : Ambient) (reqBody : option json)
    (w : World) : Response * World :=
  match defined_secret cfg with
  | None => (NextResponse_json (error_body "Server configuration error.") 500, w)
  | Some secret =>
  match reqBody with
  | None => (NextResponse_json (error_body "Internal server error.") 500, w)
  | Some reqJson =>
  match signinSchema reqJson with
  | failure message => (NextResponse_json (error_body message) 400, w)
  | success (email', password') =>
  if findOne_throws email' then
    (NextResponse_json (error_body "Internal server error.") 500, w)
  else
  match findOne_email email' (users w) with
  | None => (NextResponse_json (error_body "Invalid credentials") 401, w)
  | Some user =>
      if negb (truthy (password user)) then
        (NextResponse_json
           (error_body "Invalid credentials or account created via different method.")
           401, w)
      else if negb (bcrypt_compare password' (or_else (password user) "")) then
        (NextResponse_json (error_body "Invalid credentials") 401, w)
      else if negb (emailVerified user) then
        match generateOTP amb with
        | None => (NextResponse_json (error_body "Internal server error.") 500, w)
        | Some newOtp =>
            let w1 := updateOne (_id user) (issue_sets amb newOtp) w in
            let '(_, w2) := sendMail amb (OTPEmail (email user) newOtp "signup") w1 in
            (NextResponse_json
               (JObj [("error",
                       JStr "Email not verified. A new verification code has been sent to your email address.");
                      ("redirect", JBool true);
                      ("url",
                       JStr ("/verification/" ++ encodeURIComponent (email user)
                             ++ "/signup"))])
               403, w2)
        end
      else
        let token := jwt_sign (session_of user) secret "7d" (now amb) in
        let w1 :=
          updateOne (_id user) [set_lastLogin (now amb); set_updatedAt (now amb)] w in
        let response :=
          NextResponse_json (message_body "Signed in successfully") 200 in
        (setAuthCookie cfg response token, w1)
  end
  end
  end
  end.

Definition POST_signout (cfg : Config) (w : World) : Response * World :=
  (cookies_set
     (NextResponse_json (message_body "Signed out successfully.") 200)
     (cleared_cookie cfg),
   w).

(* ------------------------------------------------------------------ *)
(** ** GET /api/auth/me *)

(** [connected] tells whether [await clientPromise] resolves.  The token is
    read and verified before the store is reached; when the connection is
    rejected, the outer [catch] answers 500 and clears the cookie. *)
Definition GET_me_on (connected : bool) (cfg : Config) (amb : Ambient)
    (tokenCookie : option string) (w : World) : Response * World :=
  match defined_secret cfg with
  | None => (NextResponse_json (error_body "Server configuration error.") 500, w)
  | Some secret =>
  if negb (truthy tokenCookie) then
    (NextResponse_json
       (JObj [("user", JNull); ("message", JStr "No active session.")]) 200, w)
  else
  let token := or_else tokenCookie "" in
  let invalid :=
    clearAuthCookie cfg
      (NextResponse_json
         (JObj [("user", JNull);
                ("message", JStr "Invalid or expired session. Please sign in again.")])
         401) in
  match jwt_verify token secret (now amb) with
  | None => (invalid, w)
  | Some decodedToken =>
  if negb (truthy (userId decodedToken)) || negb (truthy (s_email decodedToken))
  then (invalid, w)
  else
  if connected then
  match ObjectId_new (or_else (userId decodedToken) "") with
  | None =>
      (NextResponse_json
         (JObj [("user", JNull); ("error", JStr "Failed to retrieve user data.")])
         500, w)
  | Some objectId =>
      match findOne_id objectId (users w) with
      | None =>
          (clearAuthCookie cfg
             (NextResponse_json
                (JObj [("user", JNull);
                       ("message", JStr "User not found or session expired.")])
                401), w)
      | Some userFromDb =>
          (NextResponse_json
             (JObj [("user",
                     JObj [("id", JStr (_id userFromDb));
                           ("email", JStr (email userFromDb));
                           ("name", or_null (name userFromDb));
                           ("role", JStr (or_else (role userFromDb) "user"));
                           ("emailVerified", JBool (emailVerified userFromDb))])])
             200, w)
      end
  end
  else
    (clearAuthCookie cfg
       (NextResponse_json
          (JObj [("user", JNull);
                 ("error", JStr "An internal server error occurred.")])
          500), w)
  end
  end.

(** The route once the store is connected, as the other routes are read. *)
Definition GET_me :
    Config -> Ambient -> option string -> World -> Response * World :=
  GET_me_on true.

(* ------------------------------------------------------------------ *)
(** ** Requests as a transition system *)

(** One request to one of the routes. *)
Inductive Call : Type :=
| SignIn (reqBody : option json)
| SignOut
| Verification (rawEmail type : string) (reqBody : option json)
| DeleteAccount (tokenCookie : option string)
| ResendOtp (reqBody : option json)
| ForgotPassword (reqBody : option json)
| Me (tokenCookie : option string).

Definition handle (cfg : Config) (amb : Ambient) (c : Call) (w : World)
  : Response * World :=
  match c with
  | SignIn b => POST_signin cfg amb b w
  | SignOut => POST_signout cfg w
  | Verification e t b => POST_verification cfg amb e t b w
  | DeleteAccount tok => DELETE_account cfg amb tok w
  | ResendOtp b => POST_resend_otp amb b w
  | ForgotPassword b => POST_forgot_password amb b w
  | Me tok => GET_me cfg amb tok w
  end.

(** The world after a sequence of requests, each with its surroundings. *)
Fixpoint run (cfg : Config) (reqs : list (Ambient * Call)) (w : World) : World :=
  match reqs with
  | [] => w
  | (amb, c) :: rest => run cfg rest (snd (handle cfg amb c w))
  end.

(* ------------------------------------------------------------------ *)
(** ** Properties of documents and writes *)

(** [otp] and [otpExpiry] are both null or both set. *)
Definition otp_paired (u : User) : bool :=
  match otp u, otpExpiry u with
  | Some _, Some _ => true
  | None, None => true
  | _, _ => false
  end.

Definition touches_otp (f : FieldSet) : bool :=
  match f with
  | set_otp _ | set_otpExpiry _ => true
  | _ => false
  end.

(** The values a [$set] assigns to [otp] and to [otpExpiry]: [None] when
    the field is not assigned, else [Some] of whether the value is non-null. *)
Fixpoint assigned_otp (sets : list FieldSet) : option bool :=
  match sets with
  | [] => None
  | f :: rest =>
      match assigned_otp rest with
      | Some b => Some b
      | None => match f with
                | set_otp (Some _) => Some true
                | set_otp None => Some false
                | _ => None
                end
      end
  end.

Fixpoint assigned_otpExpiry (sets : list FieldSet) : option bool :=
  match sets with
  | [] => None
  | f :: rest =>
      match assigned_otpExpiry rest with
      | Some b => Some b
      | None => match f with
                | set_otpExpiry (Some _) => Some true
                | set_otpExpiry None => Some false
                | _ => None
                end
      end
  end.

(** A write either leaves both fields alone, or sets both to values, or
    clears both. *)
Definition write_paired (wr : Write) : bool :=
  match wr with
  | UpdateOne _ sets =>
      match assigned_otp sets, assigned_otpExpiry sets with
      | None, None => true
      | Some a, Some b => Bool.eqb a b
      | _, _ => false
      end
  | DeleteOne _ => true
  end.

(** Whether a nullable field holds a value. *)
Definition is_set {A : Type} (o : option A) : bool :=
  match o with Some _ => true | None => false end.

(** [w'] comes from [w] by writes that are all paired, and its documents
    are paired if those of [w] are. *)
Definition keeps_paired (w w' : World) : Prop :=
  (Forall (fun u => otp_paired u = true) (users w) ->
   Forall (fun u => otp_paired u = true) (users w')) /\
  exists added,
    writes w' = (added ++ writes w)%list /\
    Forall (fun wr => write_paired wr = true) added.


(** The cookie is the session cookie of [account]: it is named [token],
    its value is the token signed at time [t], for seven days, over the id,
    the address, the name (or null) and the role (or "user") of the account,
    and it has the attributes of a session: HTTP-only, same-site lax, the
    whole origin, secure in production, a life of seven days. *)
Definition session_cookie_of (cfg : Config) (secret : string) (t : Date)
    (account : User) (c : Cookie) : Prop :=
  exists payload,
    userId payload = Some (_id account) /\
    s_email payload = Some (email account) /\
    s_name payload = (if truthy (name account) then name account else None) /\
    s_role payload = Some (or_else (role account) "user") /\
    c_name c = "token" /\
    c_value c = jwt_sign payload secret "7d" t /\
    httpOnly c = true /\ secure c = production cfg /\ sameSite c = "lax" /\
    path c = "/" /\ maxAge c = Some 604800 /\ expires c = None.

(** The response sets one cookie, the session cookie of [account]. *)
Definition sets_session (cfg : Config) (secret : string) (t : Date)
    (account : User) (r : Response) : Prop :=
  exists c, cookies r = [c] /\ session_cookie_of cfg secret t account c.

(** The preconditions shared by the statements about one verification
    request: the server has its secret, the address in the URL decodes,
    the account is found. *)
Definition reaches (cfg : Config) (rawEmail : string) (w : World)
    (secret : string) (user : User) : Prop :=
  defined_secret cfg = Some secret /\
  exists decoded,
    decodeURIComponent rawEmail = Some decoded /\
    findOne_email (toLowerCase decoded) (users w) = Some user.

(** Document ids are unique in the collection. *)
Definition unique_ids (docs : list User) : Prop := NoDup (map _id docs).

End Handlers.

(* ------------------------------------------------------------------ *)
(** ** GET /api/profile *)

Section ProfileRoute.
Context {P : Platform}.

(** [toISOString] is the runtime's [Date.prototype.toISOString]. *)
Definition GET_profile (toISOString : Date -> string) (cfg : Config)
    (amb : Ambient) (tokenCookie : option string) (w : World)
  : Response * World :=
  match defined_secret cfg with
  | None => (NextResponse_json (error_body "Server configuration error.") 500, w)
  | Some secret =>
  if negb (truthy tokenCookie) then
    (NextResponse_json (error_body "Authentication required.") 401, w)
  else
  let token := or_else tokenCookie "" in
  match jwt_verify token secret (now amb) with
  | None => (invalid_session_response cfg, w)
  | Some decodedToken =>
  if negb (truthy (userId decodedToken)) then (invalid_session_response cfg, w)
  else
  let userIdFromToken := or_else (userId decodedToken) "" in
  match ObjectId_new userIdFromToken with
  | None =>
      (NextResponse_json
         (error_body "Failed to retrieve user data due to database issue.") 500, w)
  | Some objectId =>
      match findOne_id objectId (users w) with
      | None =>
          (clearAuthCookie cfg
             (NextResponse_json
                (error_body
                   "User profile not found. Account may have been deleted or corrupted.")
                404), w)
      | Some user =>
          let profileData :=
            JObj [("name", or_null (name user));
                  ("email", JStr (email user));
                  ("role", JStr (or_else (role user) "user"));
                  ("emailVerified", JBool (emailVerified user));
                  ("createdAt", or_null (option_map toISOString (createdAt user)));
                  ("lastLogin", or_null (option_map toISOString (lastLogin user)))]
          in
          (NextResponse_json (JObj [("profile", profileData)]) 200, w)
      end
  end
  end
  end.

End ProfileRoute.

(* ------------------------------------------------------------------ *)
(** ** The page middleware (middleware.ts) *)

(** [s.startsWith(prefix)] *)
Fixpoint startsWith (s prefix : string) : bool :=
  match prefix, s with
  | EmptyString, _ => true
  | String a prefix', String b s' => Ascii.eqb a b && startsWith s' prefix'
  | String _ _, EmptyString => false
  end.

Definition protectedRoutes : list string := ["/dashboard"; "/settings"; "/profile"].

Definition authRedirectRoutes : list string :=
  ["/signin"; "/signup"; "/forgot-password"].

(** What the middleware answers: [NextResponse.next()], or a redirect to a
    path of the same origin with its search parameters. *)
Inductive MiddlewareResult : Type :=
| Next
| Redirect (pathname : string) (searchParams : list (string * string)).

Definition middleware (token : option string) (pathname : string)
  : MiddlewareResult :=
  if startsWith pathname "/api/"
     || startsWith pathname "/_next/"
     || startsWith pathname "/favicon.ico"
     || startsWith pathname "/public/"
     || (pathname =? "/")%string
  then Next
  else if startsWith pathname "/verification/" then
    if truthy token then Redirect "/" [] else Next
  else if truthy token
          && existsb (fun route => startsWith pathname route) authRedirectRoutes
  then Redirect "/" []
  else if existsb (fun route => startsWith pathname route) protectedRoutes then
    if negb (truthy token) then Redirect "/signin" [("from", pathname)] else Next
  else Next.

(* ------------------------------------------------------------------ *)
(** ** Notions used to state properties *)

(** A decimal digit, ['0'] to ['9']. *)
Definition is_digit (c : ascii) : bool :=
  match c with
  | "0"%char | "1"%char | "2"%char | "3"%char | "4"%char
  | "5"%char | "6"%char | "7"%char | "8"%char | "9"%char => true
  | _ => false
  end.

Fixpoint all_digits (s : string) : bool :=
  match s with
  | EmptyString => true
  | String c s' => is_digit c && all_digits s'
  end.

(** A document with its secrets blanked: the password hash, the otp and
    its expiry. *)
Definition redact (u : User) : User :=
  {| _id := _id u; email := email u; password := None; name := name u;
     role := role u; emailVerified := emailVerified u; otp := None;
     otpExpiry := None;
     createdAt := createdAt u; updatedAt := updatedAt u; lastLogin := lastLogin u |}.

Definition with_users (docs : list User) (w : World) : World :=
  {| users := docs; writes := writes w; outbox := outbox w; slept := slept w |}.

(** The fields no route assigns. *)
Definition identity_of (u : User)
  : ObjectId * string * option string * option string * option Date :=
  (_id u, email u, name u, role u, createdAt u).

(** The collection after a write. *)
Definition apply_write (wr : Write) (docs : list User) : list User :=
  match wr with
  | UpdateOne id sets => updateOne_docs id sets docs
  | DeleteOne id => fst (deleteOne_docs id docs)
  end.

(** The collection after a log of writes, the most recent first. *)
Fixpoint replay (log : list Write) (docs : list User) : list User :=
  match log with
  | [] => docs
  | wr :: earlier => apply_write wr (replay earlier docs)
  end.

(** [w'] comes from [w] by at most one write, which is in its log. *)
Definition one_write (w w' : World) : Prop :=
  (users w' = users w /\ writes w' = writes w) \/
  exists wr, users w' = apply_write wr (users w) /\ writes w' = wr :: writes w.

(** The writes the routes send. *)
Inductive route_write : Write -> Prop :=
| write_issue id t code deadline :
    route_write
      (UpdateOne id [set_otp (Some code); set_otpExpiry (Some deadline);
                     set_updatedAt t])
| write_verified id t :
    route_write
      (UpdateOne id [set_emailVerified true; set_otp None; set_otpExpiry None;
                     set_lastLogin t; set_updatedAt t])
| write_reset id t hash :
    route_write
      (UpdateOne id [set_password hash; set_otp None; set_otpExpiry None;
                     set_emailVerified true; set_lastLogin t; set_updatedAt t])
| write_login id t :
    route_write (UpdateOne id [set_lastLogin t; set_updatedAt t])
| write_delete id :
    route_write (DeleteOne id).

(** The surroundings [amb], with another mailer. *)
Definition with_mailer (d : Mail -> bool) (amb : Ambient) : Ambient :=
  {| now := now amb; randomBytes4 := randomBytes4 amb; salt := salt amb;
     delivers := d |}.

(* ------------------------------------------------------------------ *)
(** ** A sample deployment

    A small instance of [Platform] and a collection of three accounts, on
    which the handlers can be run. *)

Fixpoint strip_prefix (p s : string) : option string :=
  match p, s with
  | EmptyString, _ => Some s
  | String a p', String b s' => if Ascii.eqb a b then strip_prefix p' s' else None
  | String _ _, EmptyString => None
  end.

Fixpoint has_at (s : string) : bool :=
  match s with
  | EmptyString => false
  | String c s' => Ascii.eqb c "@"%char || has_at s'
  end.

Definition sample_platform : Platform :=
  {| regex_test_i := fun pattern s => (pattern =? "^" ++ s ++ "$")%string;
     regex_valid := fun pattern => negb (startsWith pattern "^+");
     decodeURIComponent := fun s => Some s;
     encodeURIComponent := fun s => s;
     toLowerCase := fun s => s;
     bcrypt_compare := fun plain hash => (hash =? "bcrypt:" ++ plain)%string;
     bcrypt_hash := fun plain _ _ => "bcrypt:" ++ plain;
     jwt_sign := fun payload _ _ _ => "jwt:" ++ or_else (userId payload) "";
     jwt_verify := fun token _ _ =>
       match strip_prefix "jwt:" token with
       | Some id =>
           Some {| userId := Some id; s_email := Some "someone@example.com";
                   s_name := None; s_role := Some "user" |}
       | None => None
       end;
     ObjectId_new := fun s => if (String.length s =? 24)%nat then Some s else None;
     zod_email := has_at;
     zod_invalid_type := fun expected _ => "Expected " ++ expected |}.

Definition sample_config : Config :=
  {| JWT_SECRET := Some "s3cret"; production := true |}.

Definition sample_ambient : Ambient :=
  {| now := 1000000;
     randomBytes4 := Some (Byte.x00, Byte.x01, Byte.xe2, Byte.x40);
     salt := "salt";
     delivers := fun _ => true |}.

(** An unverified account with an outstanding challenge. *)
Definition alice : User :=
  {| _id := "64b7f0a1c2d3e4f5a6b7c8d1"; email := "alice@example.com";
     password := Some "bcrypt:wonderland"; name := Some "Alice"; role := None;
     emailVerified := false; otp := Some "123456"; otpExpiry := Some 1000000;
     createdAt := Some 0; updatedAt := Some 0; lastLogin := None |}.

(** A verified account with no challenge. *)
Definition bob : User :=
  {| _id := "64b7f0a1c2d3e4f5a6b7c8d2"; email := "bob@example.com";
     password := Some "bcrypt:builder1"; name := Some "Bob"; role := Some "admin";
     emailVerified := true; otp := None; otpExpiry := None;
     createdAt := Some 0; updatedAt := Some 0; lastLogin := Some 5 |}.

(** An account created through an identity provider: no password. *)
Definition carol : User :=
  {| _id := "64b7f0a1c2d3e4f5a6b7c8d3"; email := "carol@example.com";
     password := None; name := None; role := Some "user";
     emailVerified := true; otp := None; otpExpiry := None;
     createdAt := Some 0; updatedAt := Some 0; lastLogin := None |}.

Definition sample_world : World :=
  {| users := [alice; bob; carol]; writes := []; outbox := []; slept := 0 |}.

Definition otp_body (code : string) : json := JObj [("otp", JStr code)].
Definition password_body (pw : string) : json := JObj [("password", JStr pw)].
Definition email_body (e : string) : json := JObj [("email", JStr e)].
Definition signin_body (e pw : string) : json :=
  JObj [("email", JStr e); ("password", JStr pw)].
Definition resend_body (e t : string) : json :=
  JObj [("email", JStr e); ("type", JStr t)].

(** A later request, with other random bytes. *)
Definition sample_ambient_later : Ambient :=
  {| now := 1300000;
     randomBytes4 := Some (Byte.x00, Byte.x0a, Byte.x11, Byte.x2b);
     salt := "pepper";
     delivers := fun _ => false |}.

(** A session of requests on the sample collection: Alice signs in before
    she is verified, asks for her code again, verifies; Bob forgets his
    password, confirms the code and sets a new password; Carol's account is
    deleted. *)
Definition sample_session : list (Ambient * Call) :=
  [(sample_ambient, SignIn (Some (signin_body "alice@example.com" "wonderland")));
   (sample_ambient, ResendOtp (Some (resend_body "alice@example.com" "signup")));
   (sample_ambient,
    Verification "alice@example.com" "signup" (Some (otp_body "123456")));
   (sample_ambient, ForgotPassword (Some (email_body "bob@example.com")));
   (sample_ambient,
    Verification "bob@example.com" "password-reset" (Some (otp_body "123456")));
   (sample_ambient,
    Verification "bob@example.com" "password-reset"
      (Some (password_body "newsecret")));
   (sample_ambient, DeleteAccount (Some "jwt:64b7f0a1c2d3e4f5a6b7c8d3"))].

(* ------------------------------------------------------------------ *)
(** ** Facts about the collection *)

Lemma apply_set_id (u : User) (f : FieldSet) : _id (apply_set u f) = _id u.
Proof. destruct f; reflexivity. Qed.

Lemma apply_set_email (u : User) (f : FieldSet) : email (apply_set u f) = email u.
Proof. destruct f; reflexivity. Qed.

Lemma apply_sets_id (sets : list FieldSet) :
  forall u, _id (apply_sets u sets) = _id u.
Proof.
  unfold apply_sets. induction sets as [|f sets IH]; intro u; simpl.
  - reflexivity.
  - rewrite IH. apply apply_set_id.
Qed.

Lemma apply_sets_email (sets : list FieldSet) :
  forall u, email (apply_sets u sets) = email u.
Proof.
  unfold apply_sets. induction sets as [|f sets IH]; intro u; simpl.
  - reflexivity.
  - rewrite IH. apply apply_set_email.
Qed.

Lemma updateOne_docs_ids (id : ObjectId) (sets : list FieldSet) (docs : list User) :
  map _id (updateOne_docs id sets docs) = map _id docs.
Proof.
  induction docs as [|u rest IH]; simpl.
  - reflexivity.
  - destruct (_id u =? id)%string; simpl.
    + now rewrite apply_sets_id.
    + now rewrite IH.
Qed.

Lemma findOne_id_unique (docs : list User) :
  unique_ids docs ->
  forall u, In u docs -> findOne_id (_id u) docs = Some u.
Proof.
  unfold unique_ids, findOne_id.
  induction docs as [|v rest IH]; simpl; intros Hnd u Hin.
  - contradiction.
  - inversion Hnd as [|? ? Hnotin Hnd']; subst.
    destruct Hin as [->|Hin].
    + now rewrite String.eqb_refl.
    + destruct (String.eqb_spec (_id v) (_id u)) as [Heq|Hne].
      * exfalso. apply Hnotin. rewrite Heq. now apply in_map.
      * now apply IH.
Qed.

Lemma findOne_id_updateOne (id : ObjectId) (sets : list FieldSet) (docs : list User) :
  forall u, findOne_id id docs = Some u ->
  findOne_id id (updateOne_docs id sets docs) = Some (apply_sets u sets).
Proof.
  unfold findOne_id.
  induction docs as [|v rest IH]; simpl; intros u Hf.
  - discriminate.
  - destruct (_id v =? id)%string eqn:E; simpl.
    + rewrite apply_sets_id, E. now inversion Hf.
    + rewrite E. now apply IH.
Qed.

Section CollectionFacts.
Context {P : Platform}.

Lemma findOne_email_In (e : string) (docs : list User) (u : User) :
  findOne_email e docs = Some u -> In u docs.
Proof.
  unfold findOne_email. destruct (regex_valid _); [|discriminate].
  intro H. now apply find_some in H.
Qed.

(** A lookup that returns a document has not thrown. *)
Lemma found_not_throws (e : string) (docs : list User) (u : User) :
  findOne_email e docs = Some u -> findOne_throws e = false.
Proof.
  unfold findOne_email, findOne_throws.
  destruct (regex_valid _); [reflexivity|discriminate].
Qed.

(** After an update by id, the lookup by e-mail finds the updated document. *)
Lemma findOne_email_updateOne (e : string) (sets : list FieldSet)
    (docs : list User) :
  unique_ids docs ->
  forall u, findOne_email e docs = Some u ->
  findOne_email e (updateOne_docs (_id u) sets docs) = Some (apply_sets u sets).
Proof.
  unfold unique_ids, findOne_email.
  generalize ("^" ++ e ++ "$")%string; intro pat.
  destruct (regex_valid pat); [|discriminate].
  induction docs as [|v rest IH]; simpl; intros Hnd u Hf.
  - discriminate.
  - inversion Hnd as [|? ? Hnotin Hnd']; subst.
    destruct (regex_test_i pat (email v)) eqn:Em.
    + inversion Hf; subst. rewrite String.eqb_refl. simpl.
      now rewrite apply_sets_email, Em.
    + destruct (String.eqb_spec (_id v) (_id u)) as [Heq|Hne].
      * exfalso. apply Hnotin. rewrite Heq. apply in_map.
        now apply find_some in Hf.
      * simpl. rewrite Em. now apply IH.
Qed.

(** The cookie the routes build for an account is its session cookie. *)
Lemma session_cookie_auth (cfg : Config) (secret : string) (t : Date)
    (account : User) :
  session_cookie_of cfg secret t account
    (auth_cookie cfg (jwt_sign (session_of account) secret "7d" t)).
Proof. exists (session_of account). repeat split. Qed.

Lemma sets_session_auth (cfg : Config) (secret : string) (amb : Ambient)
    (account : User) (b : json) (st : Z) :
  sets_session cfg secret (now amb) account
    (setAuthCookie cfg (NextResponse_json b st) (generateJWT secret amb account)).
Proof.
  exists (auth_cookie cfg (generateJWT secret amb account)).
  split; [reflexivity|apply session_cookie_auth].
Qed.

Lemma sets_session_of_cookies (cfg : Config) (secret : string) (t : Date)
    (account : User) (r : Response) :
  cookies r = [auth_cookie cfg (jwt_sign (session_of account) secret "7d" t)] ->
  sets_session cfg secret t account r.
Proof.
  intro Hc. exists (auth_cookie cfg (jwt_sign (session_of account) secret "7d" t)).
  split; [exact Hc | apply session_cookie_auth].
Qed.

End CollectionFacts.

(* ------------------------------------------------------------------ *)
(** ** The verification route *)

Section VerificationRoute.
Context {P : Platform}.

Ltac enter_route H :=
  destruct H as (Hsec & decoded & Hdec & Hfind);
  unfold POST_verification;
  rewrite Hsec, Hdec, (found_not_throws _ _ _ Hfind), Hfind.

(** C2. For an account with [emailVerified = true], a verification request
    of type signup with any well-formed OTP answers 200, sets the session
    cookie of that account and leaves the world unchanged.  In particular,
    after a first signup verification with the right OTP has verified an
    account, repeating the same request succeeds again, through this guard,
    whatever the time of the second request. *)
Theorem verify_signup_already_verified :
  (forall cfg amb rawEmail reqJson w secret user submitted,
      reaches cfg rawEmail w secret user ->
      otpVerificationSchema reqJson = success submitted ->
      emailVerified user = true ->
      let out := POST_verification cfg amb rawEmail "signup" (Some reqJson) w in
      status (fst out) = 200 /\
      prop "status" (body (fst out)) = Some (JStr "already_verified") /\
      sets_session cfg secret (now amb) user (fst out) /\
      snd out = w)
  /\
  (forall cfg amb1 amb2 rawEmail reqJson w secret user submitted deadline,
      reaches cfg rawEmail w secret user ->
      unique_ids (users w) ->
      otpVerificationSchema reqJson = success submitted ->
      emailVerified user = false ->
      otp user = Some submitted ->
      otpExpiry user = Some deadline ->
      now amb1 <= deadline ->
      let first := POST_verification cfg amb1 rawEmail "signup" (Some reqJson) w in
      let second :=
        POST_verification cfg amb2 rawEmail "signup" (Some reqJson) (snd first) in
      let verified := apply_sets user (verified_sets amb1) in
      status (fst first) = 200 /\
      status (fst second) = 200 /\
      prop "status" (body (fst second)) = Some (JStr "already_verified") /\
      sets_session cfg secret (now amb2) verified (fst second) /\
      identity_of verified = identity_of user /\
      snd second = snd first).
Proof.
  split.
  - intros cfg amb rawEmail reqJson w secret user submitted Hr Hp Hv.
    enter_route Hr. rewrite Hp, Hv. cbn [andb String.eqb Ascii.eqb Bool.eqb].
    cbv zeta. simpl fst. simpl snd.
    repeat split. apply sets_session_auth.
  - intros cfg amb1 amb2 rawEmail reqJson w secret user submitted deadline
      Hr Hu Hp Hv Ho He Hle.
    assert (Hin : In user (users w)).
    { destruct Hr as (_ & d & _ & Hf). now apply findOne_email_In in Hf. }
    pose proof (findOne_id_unique _ Hu _ Hin) as Hid.
    pose proof (findOne_id_updateOne _ (verified_sets amb1) _ _ Hid) as Hid'.
    destruct Hr as (Hsec & decoded & Hdec & Hfind).
    pose proof (findOne_email_updateOne _ (verified_sets amb1) _ Hu _ Hfind) as Hfe.
    assert (Hrej : otp_rejected amb1 user submitted = false).
    { unfold otp_rejected. rewrite Ho, He. simpl.
      rewrite String.eqb_refl.
      assert (Hlen : (submitted =? "")%string = false).
      { apply String.eqb_neq. intro Hs. subst submitted.
        unfold otpVerificationSchema in Hp. destruct reqJson; try discriminate.
        unfold z_string_length, z_string in Hp.
        destruct (prop "otp" (JObj fields)) as [[]|]; try discriminate.
        destruct (strlen s =? 6) eqn:E; try discriminate.
        inversion Hp; subst. discriminate. }
      rewrite Hlen. simpl. apply Z.ltb_ge. exact Hle. }
    cbv zeta.
    assert (Hfirst :
      POST_verification cfg amb1 rawEmail "signup" (Some reqJson) w =
      (setAuthCookie cfg
         (NextResponse_json
            (JObj [("user", user_json (apply_sets user (verified_sets amb1)))]) 200)
         (generateJWT secret amb1 (apply_sets user (verified_sets amb1))),
       snd (sendMail amb1
              (VerificationSuccessEmail (toLowerCase decoded)
                 (or_else (name user) "User"))
              (updateOne (_id user) (verified_sets amb1) w)))).
    { unfold POST_verification.
      rewrite Hsec, Hdec, (found_not_throws _ _ _ Hfind), Hfind, Hp, Hv, Hrej.
      simpl. rewrite Hid'. reflexivity. }
    rewrite Hfirst.
    unfold POST_verification. rewrite Hsec, Hdec. simpl snd. simpl users.
    rewrite (found_not_throws _ _ _ Hfe), Hfe, Hp.
    cbn [andb String.eqb Ascii.eqb Bool.eqb].
    assert (Hver : emailVerified (apply_sets user (verified_sets amb1)) = true)
      by reflexivity.
    rewrite Hver. cbv zeta. simpl fst. simpl snd.
    repeat split. apply sets_session_auth.
Qed.

(** A body accepted as an OTP carries six code units. *)
Lemma otpVerificationSchema_length (reqJson : json) (submitted : string) :
  otpVerificationSchema reqJson = success submitted -> strlen submitted = 6.
Proof.
  unfold otpVerificationSchema. destruct reqJson; try discriminate.
  unfold z_string_length, z_string.
  destruct (prop "otp" (JObj fields)) as [[]|]; try discriminate.
  destruct (strlen s =? 6) eqn:E; try discriminate.
  intro H; inversion H; subst. now apply Z.eqb_eq.
Qed.

(** The test of the route, read as the four causes of rejection. *)
Lemma otp_rejected_iff (amb : Ambient) (user : User) (submitted : string) :
  strlen submitted = 6 ->
  otp_rejected amb user submitted = true <->
  otp user = None \/ otpExpiry user = None \/ otp user <> Some submitted \/
  (exists deadline, otpExpiry user = Some deadline /\ deadline < now amb).
Proof.
  intro Hlen. unfold otp_rejected, truthy.
  destruct (otp user) as [o|]; destruct (otpExpiry user) as [e|]; simpl.
  - destruct (String.eqb_spec o submitted) as [->|Hne].
    + assert (Hs : (submitted =? "")%string = false).
      { apply String.eqb_neq. intro Hs. subst. discriminate. }
      rewrite Hs. simpl. rewrite Z.ltb_lt. split.
      * intro H. right; right; right. now exists e.
      * intros [H|[H|[H|(d & Hd & Hlt)]]]; try discriminate.
        -- now elim H.
        -- now inversion Hd; subst.
    + split; [intros _|intros _].
      * right; right; left. intro H. inversion H. now apply Hne.
      * now rewrite orb_true_r.
  - split; [intros _; right; now left|intros _; now rewrite orb_true_r].
  - split; [intros _; now left|reflexivity].
  - split; [intros _; now left|reflexivity].
Qed.

(** C5. For an account outside the already-verified signup guard, a
    verification request with a well-formed OTP is answered with status 400
    and the error [Invalid or expired OTP.] exactly when the stored otp is
    missing, the stored otpExpiry is missing, the submitted code differs from
    the stored one, or otpExpiry is strictly earlier than the time of the
    request; in that case the world is unchanged and no cookie is set. *)
Theorem verify_invalid_or_expired :
  forall cfg amb rawEmail type reqJson w secret user submitted,
    reaches cfg rawEmail w secret user ->
    otpVerificationSchema reqJson = success submitted ->
    ~ (type = "signup" /\ emailVerified user = true) ->
    let out := POST_verification cfg amb rawEmail type (Some reqJson) w in
    let rejected :=
      status (fst out) = 400 /\
      body (fst out) = error_body "Invalid or expired OTP." in
    (rejected <->
       otp user = None \/ otpExpiry user = None \/ otp user <> Some submitted \/
       (exists deadline, otpExpiry user = Some deadline /\ deadline < now amb))
    /\ (rejected -> snd out = w /\ cookies (fst out) = []).
Proof.
  intros cfg amb rawEmail type reqJson w secret user submitted Hr Hp Hguard.
  pose proof (otpVerificationSchema_length _ _ Hp) as Hlen.
  pose proof (otp_rejected_iff amb user submitted Hlen) as Hiff.
  enter_route Hr. rewrite Hp.
  assert (Hg : ((type =? "signup")%string && emailVerified user) = false).
  { destruct (String.eqb_spec type "signup") as [->|]; [|reflexivity].
    destruct (emailVerified user); [|reflexivity].
    exfalso. now apply Hguard. }
  rewrite Hg.
  destruct (otp_rejected amb user submitted) eqn:Hrej.
  - cbv zeta. simpl. split.
    + split; [intros _; now apply Hiff|intros _; now split].
    + intros _. now split.
  - assert (Hno : ~ (otp user = None \/ otpExpiry user = None \/
                     otp user <> Some submitted \/
                     (exists deadline,
                         otpExpiry user = Some deadline /\ deadline < now amb))).
    { intro H. apply Hiff in H. discriminate. }
    cbv zeta.
    destruct (type =? "signup")%string.
    + simpl.
      destruct (findOne_id (_id user)
                  (updateOne_docs (_id user) (verified_sets amb) (users w)));
        simpl; (split; [split; [intros [Hst _]; discriminate|intro H; now elim Hno]
                       |intros [Hst _]; discriminate]).
    + destruct (type =? "password-reset")%string; simpl.
      * split; [split; [intros [Hst _]; discriminate|intro H; now elim Hno]
               |intros [Hst _]; discriminate].
      * split; [split; [intros [_ Hb]; discriminate|intro H; now elim Hno]
               |intros [_ Hb]; discriminate].
Qed.

(** C6. For an unverified account whose stored OTP equals the submitted
    one and has not expired, a verification request of type signup sends one
    update to the store, which clears otp and otpExpiry, sets emailVerified
    and stamps lastLogin and updatedAt; the answer has status 200 and sets
    the session cookie of the updated account. *)
Theorem verify_signup_success :
  forall cfg amb rawEmail reqJson w secret user submitted deadline,
    reaches cfg rawEmail w secret user ->
    unique_ids (users w) ->
    otpVerificationSchema reqJson = success submitted ->
    emailVerified user = false ->
    otp user = Some submitted ->
    otpExpiry user = Some deadline ->
    now amb <= deadline ->
    let out := POST_verification cfg amb rawEmail "signup" (Some reqJson) w in
    exists verified,
      writes (snd out) =
        UpdateOne (_id user)
          [set_emailVerified true; set_otp None; set_otpExpiry None;
           set_lastLogin (now amb); set_updatedAt (now amb)] :: writes w /\
      findOne_id (_id user) (users (snd out)) = Some verified /\
      otp verified = None /\ otpExpiry verified = None /\
      emailVerified verified = true /\
      lastLogin verified = Some (now amb) /\ updatedAt verified = Some (now amb) /\
      (_id verified, email verified, password verified, name verified,
       role verified, createdAt verified)
      = (_id user, email user, password user, name user, role user,
         createdAt user) /\
      status (fst out) = 200 /\
      sets_session cfg secret (now amb) verified (fst out).
Proof.
  intros cfg amb rawEmail reqJson w secret user submitted deadline
    Hr Hu Hp Hv Ho He Hle.
  pose proof (otpVerificationSchema_length _ _ Hp) as Hlen.
  assert (Hrej : otp_rejected amb user submitted = false).
  { destruct (otp_rejected amb user submitted) eqn:E; [|reflexivity].
    apply otp_rejected_iff in E; [|assumption].
    destruct E as [H|[H|[H|(d & Hd & Hlt)]]]; try congruence.
    rewrite He in Hd. inversion Hd; subst. lia. }
  assert (Hin : In user (users w)).
  { destruct Hr as (_ & d & _ & Hf). now apply findOne_email_In in Hf. }
  pose proof (findOne_id_unique _ Hu _ Hin) as Hid.
  pose proof (findOne_id_updateOne _ (verified_sets amb) _ _ Hid) as Hid'.
  enter_route Hr. rewrite Hp, Hv, Hrej. simpl. rewrite Hid'. simpl.
  exists (apply_sets user (verified_sets amb)). rewrite Hid'.
  repeat split; try reflexivity.
  apply (sets_session_auth cfg secret amb
           (apply_sets user (verified_sets amb))).
Qed.

(** C8. For an account whose stored OTP equals the submitted one and has
    not expired, a verification request of type password-reset answers 200
    with the message to proceed, sets no cookie and leaves the world as it
    was: the account keeps every field, otp and otpExpiry included. *)
Theorem verify_password_reset_proceeds :
  forall cfg amb rawEmail reqJson w secret user submitted deadline,
    reaches cfg rawEmail w secret user ->
    otpVerificationSchema reqJson = success submitted ->
    otp user = Some submitted ->
    otpExpiry user = Some deadline ->
    now amb <= deadline ->
    let out :=
      POST_verification cfg amb rawEmail "password-reset" (Some reqJson) w in
    status (fst out) = 200 /\
    body (fst out) = message_body "OTP verified. Proceed to set new password." /\
    cookies (fst out) = [] /\
    snd out = w /\
    reaches cfg rawEmail (snd out) secret user.
Proof.
  intros cfg amb rawEmail reqJson w secret user submitted deadline
    Hr Hp Ho He Hle.
  pose proof (otpVerificationSchema_length _ _ Hp) as Hlen.
  assert (Hrej : otp_rejected amb user submitted = false).
  { destruct (otp_rejected amb user submitted) eqn:E; [|reflexivity].
    apply otp_rejected_iff in E; [|assumption].
    destruct E as [H|[H|[H|(d & Hd & Hlt)]]]; try congruence.
    rewrite He in Hd. inversion Hd; subst. lia. }
  pose proof Hr as Hr'.
  enter_route Hr. rewrite Hp, Hrej. simpl. auto 10.
Qed.

(** What a completed password reset leaves behind, for a request that
    carries a password and no OTP and is not rejected as a repetition of the
    stored password. *)
Lemma reset_password_completes :
  forall cfg amb rawEmail type reqJson w secret user m newPassword,
    reaches cfg rawEmail w secret user ->
    unique_ids (users w) ->
    otpVerificationSchema reqJson = failure m ->
    passwordResetBodySchema reqJson = success newPassword ->
    truthy (password user)
    && bcrypt_compare newPassword (or_else (password user) "") = false ->
    let out := POST_verification cfg amb rawEmail type (Some reqJson) w in
    let sets := reset_sets amb (bcrypt_hash newPassword 10 (salt amb)) in
    writes (snd out) = UpdateOne (_id user) sets :: writes w /\
    users (snd out) = updateOne_docs (_id user) sets (users w) /\
    findOne_id (_id user) (users (snd out)) = Some (apply_sets user sets) /\
    fst out =
      setAuthCookie cfg
        (NextResponse_json (JObj [("user", user_json (apply_sets user sets))]) 200)
        (generateJWT secret amb (apply_sets user sets)).
Proof.
  intros cfg amb rawEmail type reqJson w secret user m newPassword
    Hr Hu Hno Hp Hdiff.
  assert (Hin : In user (users w)).
  { destruct Hr as (_ & d & _ & Hf). now apply findOne_email_In in Hf. }
  pose proof (findOne_id_unique _ Hu _ Hin) as Hid.
  pose proof (findOne_id_updateOne _
                (reset_sets amb (bcrypt_hash newPassword 10 (salt amb))) _ _ Hid)
    as Hid'.
  enter_route Hr. rewrite Hno, Hp, Hdiff. cbv zeta.
  unfold sendMail.
  destruct (emailVerified user); simpl;
    [|destruct (delivers amb _); simpl]; rewrite Hid'; simpl; auto.
Qed.

(** C7. When the new password bcrypt-compares equal to the stored hash,
    the completion of a password reset is answered with status 400 and the
    world is unchanged; when it does not, the completion succeeds: one update
    stores the new hash, clears otp and otpExpiry, sets emailVerified and
    stamps lastLogin and updatedAt, and the answer sets the session cookie. *)
Theorem reset_password_same_or_new :
  forall cfg amb rawEmail type reqJson w secret user m newPassword,
    reaches cfg rawEmail w secret user ->
    unique_ids (users w) ->
    otpVerificationSchema reqJson = failure m ->
    passwordResetBodySchema reqJson = success newPassword ->
    let out := POST_verification cfg amb rawEmail type (Some reqJson) w in
    (forall hash,
        password user = Some hash -> hash <> "" ->
        bcrypt_compare newPassword hash = true ->
        status (fst out) = 400 /\
        body (fst out)
        = error_body "New password cannot be the same as the old password." /\
        cookies (fst out) = [] /\
        snd out = w)
    /\
    ((forall hash, password user = Some hash ->
                   bcrypt_compare newPassword hash = false) ->
     exists updated,
       writes (snd out) =
         UpdateOne (_id user)
           [set_password (bcrypt_hash newPassword 10 (salt amb));
            set_otp None; set_otpExpiry None; set_emailVerified true;
            set_lastLogin (now amb); set_updatedAt (now amb)] :: writes w /\
       findOne_id (_id user) (users (snd out)) = Some updated /\
       password updated = Some (bcrypt_hash newPassword 10 (salt amb)) /\
       otp updated = None /\ otpExpiry updated = None /\
       emailVerified updated = true /\
       lastLogin updated = Some (now amb) /\ updatedAt updated = Some (now amb) /\
       identity_of updated = identity_of user /\
       status (fst out) = 200 /\
       sets_session cfg secret (now amb) updated (fst out)).
Proof.
  intros cfg amb rawEmail type reqJson w secret user m newPassword Hr Hu Hno Hp.
  cbv zeta. split.
  - intros hash Hpw Hne Hcmp.
    enter_route Hr. rewrite Hno, Hp, Hpw. simpl.
    apply String.eqb_neq in Hne. rewrite Hne. simpl. rewrite Hcmp. simpl. auto.
  - intro Hdiff.
    assert (Hd : truthy (password user)
                 && bcrypt_compare newPassword (or_else (password user) "")
                 = false).
    { destruct (password user) as [hash|] eqn:Hpw; [|reflexivity].
      simpl. destruct (hash =? "")%string; [reflexivity|]. simpl.
      now apply Hdiff. }
    destruct (reset_password_completes cfg amb rawEmail type reqJson w secret
                user m newPassword Hr Hu Hno Hp Hd) as (Hw & _ & Hf & Hresp).
    exists (apply_sets user
              (reset_sets amb (bcrypt_hash newPassword 10 (salt amb)))).
    rewrite Hresp. repeat split; try (assumption || reflexivity).
    apply sets_session_auth.
Qed.

(** C1, as the route implements it.  The completion of a password reset
    does not consult otp or otpExpiry: for every account, whatever its otp and
    otpExpiry and whatever the time, a request that carries a valid new
    password (and no OTP) which does not bcrypt-compare equal to the stored
    hash stores the hash of the new password and answers 200. *)
Theorem reset_password_ignores_challenge :
  forall cfg amb rawEmail type reqJson w secret user m newPassword,
    reaches cfg rawEmail w secret user ->
    unique_ids (users w) ->
    otpVerificationSchema reqJson = failure m ->
    passwordResetBodySchema reqJson = success newPassword ->
    truthy (password user)
    && bcrypt_compare newPassword (or_else (password user) "") = false ->
    let out := POST_verification cfg amb rawEmail type (Some reqJson) w in
    exists updated,
      findOne_id (_id user) (users (snd out)) = Some updated /\
      password updated = Some (bcrypt_hash newPassword 10 (salt amb)) /\
      otp updated = None /\ otpExpiry updated = None /\
      status (fst out) = 200.
Proof.
  intros cfg amb rawEmail type reqJson w secret user m newPassword
    Hr Hu Hno Hp Hd.
  destruct (reset_password_completes cfg amb rawEmail type reqJson w secret
              user m newPassword Hr Hu Hno Hp Hd) as (_ & _ & Hf & Hresp).
  cbv zeta.
  exists (apply_sets user (reset_sets amb (bcrypt_hash newPassword 10 (salt amb)))).
  rewrite Hresp. repeat split; assumption || reflexivity.
Qed.

End VerificationRoute.

(* ------------------------------------------------------------------ *)
(** ** Account deletion *)

Lemma deleteOne_docs_count (id : ObjectId) (docs : list User) :
  snd (deleteOne_docs id docs) = 0 \/ snd (deleteOne_docs id docs) = 1.
Proof.
  induction docs as [|u rest IH]; simpl; [now left|].
  destruct (_id u =? id)%string; [now right|].
  destruct (deleteOne_docs id rest); simpl in *. exact IH.
Qed.


(** With unique ids, a deletion that counts one document removes the
    document of that id and no other. *)
Lemma deleteOne_docs_one (id : ObjectId) (docs : list User) :
  unique_ids docs ->
  snd (deleteOne_docs id docs) = 1 ->
  (exists victim, findOne_id id docs = Some victim) /\
  forall v, In v (fst (deleteOne_docs id docs)) <-> In v docs /\ _id v <> id.
Proof.
  unfold unique_ids, findOne_id.
  induction docs as [|u rest IH]; simpl; intros Hnd Hone; [discriminate|].
  inversion Hnd as [|? ? Hnotin Hnd']; subst.
  destruct (String.eqb_spec (_id u) id) as [Heq|Hne]; simpl.
  - split; [now exists u|]. intro v. split.
    + intro Hin. split; [now right|].
      intro Hv. apply Hnotin. rewrite Heq, <- Hv. now apply in_map.
    + intros [[->|Hin] Hv]; [now elim Hv|assumption].
  - destruct (deleteOne_docs id rest) as [rest' n] eqn:E; simpl in *.
    destruct (IH Hnd' Hone) as [Hex Hiff]. split; [assumption|].
    intro v. rewrite Hiff. split.
    + intros [->|[Hin Hv]]; auto.
    + intros [[->|Hin] Hv]; auto.
Qed.

Section DeletionRoute.
Context {P : Platform}.


End DeletionRoute.

(* ------------------------------------------------------------------ *)
(** ** Resend and forgot-password *)

Section EnumerationSafeRoutes.
Context {P : Platform}.

(** C3, as the routes implement it.  For a body that passes validation and
    whose address the database accepts between [^] and [$] as a regular
    expression, and with the secure random source available, each of the two
    routes answers 200 with one fixed message, whatever the collection holds
    (so the answer is the same for two collections, one with and one without
    the account).  The resend route awaits one second before it answers, on
    every such path; the forgot-password route awaits no artificial delay. *)
Theorem generic_answers :
  (forall amb reqJson address type bytes,
      resendOtpSchema reqJson = success (address, type) ->
      findOne_throws address = false ->
      randomBytes4 amb = Some bytes ->
      forall w w',
        let out := POST_resend_otp amb (Some reqJson) w in
        let out' := POST_resend_otp amb (Some reqJson) w' in
        status (fst out) = 200 /\
        body (fst out)
        = message_body
            "If an account with that email exists, a new OTP has been sent." /\
        fst out = fst out' /\
        slept (snd out) = slept w + 1000)
  /\
  (forall amb reqJson address bytes,
      forgotPasswordSchema reqJson = success address ->
      findOne_throws address = false ->
      randomBytes4 amb = Some bytes ->
      forall w w',
        let out := POST_forgot_password amb (Some reqJson) w in
        let out' := POST_forgot_password amb (Some reqJson) w' in
        status (fst out) = 200 /\
        body (fst out)
        = message_body
            "If your email is registered, a password reset code has been sent." /\
        fst out = fst out' /\
        slept (snd out) = slept w).
Proof.
  split.
  - intros amb reqJson address type bytes Hp Hnt Hrand.
    assert (Hone : forall w,
               fst (POST_resend_otp amb (Some reqJson) w) = resend_response /\
               slept (snd (POST_resend_otp amb (Some reqJson) w))
               = slept w + 1000).
    { intro w. unfold POST_resend_otp, generateOTP. rewrite Hp, Hnt, Hrand.
      destruct (findOne_email address (users w)) as [user|]; [|now split].
      destruct ((type =? "signup")%string && emailVerified user); now split. }
    intros w w'. cbv zeta.
    destruct (Hone w) as [Hr Hs]. destruct (Hone w') as [Hr' _].
    rewrite Hr, Hr', Hs. repeat split; reflexivity.
  - intros amb reqJson address bytes Hp Hnt Hrand.
    assert (Hone : forall w,
               fst (POST_forgot_password amb (Some reqJson) w) = forgot_response /\
               slept (snd (POST_forgot_password amb (Some reqJson) w)) = slept w).
    { intro w. unfold POST_forgot_password, generateOTP. rewrite Hp, Hnt, Hrand.
      destruct (findOne_email address (users w)) as [user|]; now split. }
    intros w w'. cbv zeta.
    destruct (Hone w) as [Hr Hs]. destruct (Hone w') as [Hr' _].
    rewrite Hr, Hr', Hs. repeat split; reflexivity.
Qed.

End EnumerationSafeRoutes.

(* ------------------------------------------------------------------ *)
(** ** Sign-in *)

Section SignInRoute.
Context {P : Platform}.

(** The three refusals of the sign-in route for a valid body: all have
    status 401; an unknown address and a wrong password share one message,
    an account without a password gets another. *)
Lemma signin_refusals :
  forall cfg amb reqJson w secret address pw,
    defined_secret cfg = Some secret ->
    signinSchema reqJson = success (address, pw) ->
    let out := POST_signin cfg amb (Some reqJson) w in
    (findOne_throws address = false ->
     findOne_email address (users w) = None ->
     fst out = NextResponse_json (error_body "Invalid credentials") 401) /\
    (forall user hash,
        findOne_email address (users w) = Some user ->
        password user = Some hash -> hash <> "" ->
        bcrypt_compare pw hash = false ->
        fst out = NextResponse_json (error_body "Invalid credentials") 401) /\
    (forall user,
        findOne_email address (users w) = Some user ->
        truthy (password user) = false ->
        fst out =
          NextResponse_json
            (error_body
               "Invalid credentials or account created via different method.")
            401).
Proof.
  intros cfg amb reqJson w secret address pw Hsec Hp. cbv zeta.
  unfold POST_signin. rewrite Hsec, Hp.
  split; [|split].
  - intros -> ->. reflexivity.
  - intros user hash Hf Hpw Hne Hcmp.
    rewrite (found_not_throws _ _ _ Hf), Hf, Hpw. simpl.
    apply String.eqb_neq in Hne. rewrite Hne. simpl. now rewrite Hcmp.
  - intros user Hf Hfalsy.
    now rewrite (found_not_throws _ _ _ Hf), Hf, Hfalsy.
Qed.

(** X1. Signing in with the right password before the address is verified
    sets no session cookie: the answer is 403, and one update issues a new
    challenge that expires ten minutes after the request. *)
Theorem signin_unverified_issues_challenge :
  forall cfg amb reqJson w secret address pw user hash bytes,
    defined_secret cfg = Some secret ->
    signinSchema reqJson = success (address, pw) ->
    findOne_email address (users w) = Some user ->
    password user = Some hash -> hash <> "" ->
    bcrypt_compare pw hash = true ->
    emailVerified user = false ->
    randomBytes4 amb = Some bytes ->
    let out := POST_signin cfg amb (Some reqJson) w in
    status (fst out) = 403 /\
    cookies (fst out) = [] /\
    exists newOtp,
      generateOTP amb = Some newOtp /\
      writes (snd out) =
        UpdateOne (_id user)
          [set_otp (Some newOtp);
           set_otpExpiry (Some (now amb + 10 * 60 * 1000));
           set_updatedAt (now amb)] :: writes w.
Proof.
  intros cfg amb reqJson w secret address pw user hash bytes
    Hsec Hp Hf Hpw Hne Hcmp Hv Hrand. cbv zeta.
  unfold POST_signin. rewrite Hsec, Hp, (found_not_throws _ _ _ Hf), Hf, Hpw. simpl.
  apply String.eqb_neq in Hne. rewrite Hne. simpl. rewrite Hcmp, Hv. simpl.
  unfold generateOTP. rewrite Hrand. simpl.
  repeat split. eexists. split; reflexivity.
Qed.

End SignInRoute.

(* ------------------------------------------------------------------ *)
(** ** The pairing of otp and otpExpiry *)

Lemma assigned_otp_spec (sets : list FieldSet) :
  forall u,
    match assigned_otp sets with
    | Some b => is_set (otp (apply_sets u sets)) = b
    | None => otp (apply_sets u sets) = otp u
    end.
Proof.
  unfold apply_sets.
  induction sets as [|f rest IH]; intro u; simpl; [reflexivity|].
  specialize (IH (apply_set u f)).
  destruct (assigned_otp rest); [exact IH|].
  rewrite IH. destruct f as [| [o|] | | | |]; reflexivity.
Qed.

Lemma assigned_otpExpiry_spec (sets : list FieldSet) :
  forall u,
    match assigned_otpExpiry sets with
    | Some b => is_set (otpExpiry (apply_sets u sets)) = b
    | None => otpExpiry (apply_sets u sets) = otpExpiry u
    end.
Proof.
  unfold apply_sets.
  induction sets as [|f rest IH]; intro u; simpl; [reflexivity|].
  specialize (IH (apply_set u f)).
  destruct (assigned_otpExpiry rest); [exact IH|].
  rewrite IH. destruct f as [| | [o|] | | |]; reflexivity.
Qed.

Lemma otp_paired_is_set (u : User) :
  otp_paired u = Bool.eqb (is_set (otp u)) (is_set (otpExpiry u)).
Proof. unfold otp_paired. destruct (otp u), (otpExpiry u); reflexivity. Qed.

(** A paired write keeps a paired document paired. *)
Lemma apply_sets_paired (id : ObjectId) (sets : list FieldSet) (u : User) :
  write_paired (UpdateOne id sets) = true ->
  otp_paired u = true ->
  otp_paired (apply_sets u sets) = true.
Proof.
  simpl. intros Hw Hu. rewrite otp_paired_is_set in *.
  pose proof (assigned_otp_spec sets u) as Ho.
  pose proof (assigned_otpExpiry_spec sets u) as He.
  destruct (assigned_otp sets) as [a|], (assigned_otpExpiry sets) as [b|];
    try discriminate.
  - now rewrite Ho, He.
  - now rewrite Ho, He.
Qed.

Lemma updateOne_docs_paired (id : ObjectId) (sets : list FieldSet)
    (docs : list User) :
  write_paired (UpdateOne id sets) = true ->
  Forall (fun u => otp_paired u = true) docs ->
  Forall (fun u => otp_paired u = true) (updateOne_docs id sets docs).
Proof.
  intros Hw. induction docs as [|u rest IH]; simpl; intro H; [constructor|].
  inversion H as [|? ? Hu Hrest]; subst.
  destruct (_id u =? id)%string; constructor; auto.
  now apply (apply_sets_paired id).
Qed.

Lemma deleteOne_docs_paired (id : ObjectId) (docs : list User) :
  Forall (fun u => otp_paired u = true) docs ->
  Forall (fun u => otp_paired u = true) (fst (deleteOne_docs id docs)).
Proof.
  induction docs as [|u rest IH]; simpl; intro H; [constructor|].
  inversion H as [|? ? Hu Hrest]; subst.
  destruct (_id u =? id)%string; [assumption|].
  specialize (IH Hrest). destruct (deleteOne_docs id rest); simpl in *.
  now constructor.
Qed.

Lemma keeps_paired_refl (w : World) : keeps_paired w w.
Proof. split; [auto|]. exists []. split; [reflexivity|constructor]. Qed.

Lemma keeps_paired_trans (w1 w2 w3 : World) :
  keeps_paired w1 w2 -> keeps_paired w2 w3 -> keeps_paired w1 w3.
Proof.
  intros [H12 (a12 & E12 & F12)] [H23 (a23 & E23 & F23)]. split; [auto|].
  exists (a23 ++ a12)%list. split.
  - now rewrite E23, E12, app_assoc.
  - apply Forall_app. now split.
Qed.

Lemma keeps_paired_deleteOne (id : ObjectId) (w : World) :
  keeps_paired w (snd (deleteOne id w)).
Proof.
  unfold deleteOne.
  pose proof (deleteOne_docs_paired id (users w)) as H.
  destruct (deleteOne_docs id (users w)) as [docs n]; simpl in *.
  split; simpl; [exact H|].
  exists [DeleteOne id]. split; [reflexivity|]. now repeat constructor.
Qed.

Section Pairing.
Context {P : Platform}.

(** Closes [keeps_paired w w'] for a world [w'] written out by a route:
    no write, or one write whose [$set] is paired. *)
Ltac keeps :=
  first
    [ apply keeps_paired_refl
    | split; simpl;
      [ first [ now apply updateOne_docs_paired | auto ]
      | first [ exists (@nil Write); split; [reflexivity|constructor]
              | eexists [_]; split; [reflexivity|now repeat constructor] ] ] ].

(** Every route keeps the pairing. *)
Lemma handle_keeps_paired (cfg : Config) (amb : Ambient) (c : Call) (w : World) :
  keeps_paired w (snd (handle cfg amb c w)).
Proof.
  destruct c as [b| |e t b|tok|b|b|tok]; simpl.
  - (* sign-in *)
    unfold POST_signin, sendMail.
    destruct (defined_secret cfg); [|keeps].
    destruct b as [reqJson|]; [|keeps].
    destruct (signinSchema reqJson) as [[address pw]|]; [|keeps].
    destruct (findOne_throws address); [keeps|].
    destruct (findOne_email address (users w)) as [user|]; [|keeps].
    destruct (negb (truthy (password user))); [keeps|].
    destruct (negb (bcrypt_compare pw (or_else (password user) ""))); [keeps|].
    destruct (negb (emailVerified user)); [|keeps].
    destruct (generateOTP amb) as [newOtp|]; keeps.
  - (* sign-out *)
    keeps.
  - (* verification *)
    unfold POST_verification, sendMail.
    destruct (defined_secret cfg) as [secret|]; [|keeps].
    destruct (decodeURIComponent e) as [decoded|]; [|keeps].
    destruct b as [reqJson|]; [|keeps].
    destruct (findOne_throws (toLowerCase decoded)); [keeps|].
    destruct (findOne_email (toLowerCase decoded) (users w)) as [user|]; [|keeps].
    destruct (otpVerificationSchema reqJson) as [submitted|].
    + destruct ((t =? "signup")%string && emailVerified user); [keeps|].
      destruct (otp_rejected amb user submitted); [keeps|].
      destruct (t =? "signup")%string.
      * simpl.
        destruct (findOne_id (_id user)
                    (updateOne_docs (_id user) (verified_sets amb) (users w)));
          keeps.
      * destruct (t =? "password-reset")%string; keeps.
    + destruct (passwordResetBodySchema reqJson) as [newPassword|]; [|keeps].
      destruct (truthy (password user)
                && bcrypt_compare newPassword (or_else (password user) ""));
        [keeps|].
      set (sets := reset_sets amb (bcrypt_hash newPassword 10 (salt amb))).
      assert (Hsets : write_paired (UpdateOne (_id user) sets) = true)
        by reflexivity.
      destruct (negb (emailVerified user)); simpl;
        [destruct (delivers amb _); simpl|];
        destruct (findOne_id (_id user) (updateOne_docs (_id user) sets (users w)));
        keeps.
  - (* account deletion *)
    unfold DELETE_account.
    destruct (defined_secret cfg) as [secret|]; [|keeps].
    destruct (negb (truthy tok)); [keeps|].
    destruct (jwt_verify (or_else tok "") secret (now amb)) as [session|];
      [|keeps].
    destruct (negb (truthy (userId session))); [keeps|].
    destruct (ObjectId_new (or_else (userId session) "")) as [oid|]; [|keeps].
    pose proof (keeps_paired_deleteOne oid w) as H.
    destruct (deleteOne oid w) as [n w1]; simpl in *.
    destruct (n =? 0); exact H.
  - (* resend *)
    unfold POST_resend_otp, sendMail.
    destruct b as [reqJson|]; [|keeps].
    destruct (resendOtpSchema reqJson) as [[address t]|]; [|keeps].
    destruct (findOne_throws address); [keeps|].
    destruct (findOne_email address (users w)) as [user|]; [|keeps].
    destruct ((t =? "signup")%string && emailVerified user); [keeps|].
    destruct (generateOTP amb) as [newOtp|]; keeps.
  - (* forgot-password *)
    unfold POST_forgot_password, sendMail.
    destruct b as [reqJson|]; [|keeps].
    destruct (forgotPasswordSchema reqJson) as [address|]; [|keeps].
    destruct (findOne_throws address); [keeps|].
    destruct (findOne_email address (users w)) as [user|]; [|keeps].
    destruct (generateOTP amb) as [newOtp|]; keeps.
  - (* session probe *)
    unfold GET_me, GET_me_on.
    destruct (defined_secret cfg) as [secret|]; [|keeps].
    destruct (negb (truthy tok)); [keeps|].
    destruct (jwt_verify (or_else tok "") secret (now amb)) as [session|];
      [|keeps].
    destruct (negb (truthy (userId session)) || negb (truthy (s_email session)));
      [keeps|].
    destruct (ObjectId_new (or_else (userId session) "")) as [oid|]; [|keeps].
    destruct (findOne_id oid (users w)); keeps.
Qed.

(** C10.  Every route keeps otp and otpExpiry paired.  Along any sequence
    of requests, each write sent to the store either assigns neither field,
    or assigns both a value, or assigns both null; and if every document
    had both fields null or both set before, so it is after. *)
Theorem otp_fields_stay_paired :
  forall cfg reqs w,
    Forall (fun u => otp_paired u = true) (users w) ->
    Forall (fun u => otp_paired u = true) (users (run cfg reqs w)) /\
    exists added,
      writes (run cfg reqs w) = (added ++ writes w)%list /\
      Forall (fun wr => write_paired wr = true) added.
Proof.
  intros cfg reqs w Hinv.
  assert (H : keeps_paired w (run cfg reqs w)).
  { clear Hinv. revert w.
    induction reqs as [|[amb c] rest IH]; intro w; simpl.
    - apply keeps_paired_refl.
    - eapply keeps_paired_trans; [apply handle_keeps_paired|apply IH]. }
  destruct H as [Hdocs Hwrites]. split; [now apply Hdocs|exact Hwrites].
Qed.

End Pairing.

(* ------------------------------------------------------------------ *)
(** ** The statements on the sample deployment *)

Lemma sample_reaches (u : User) :
  In u (users sample_world) ->
  reaches (P := sample_platform) sample_config (email u) sample_world "s3cret" u.
Proof.
  intro Hin. split; [reflexivity|]. exists (email u). split; [reflexivity|].
  simpl in Hin. destruct Hin as [<-|[<-|[<-|[]]]]; reflexivity.
Qed.

Lemma sample_unique_ids : unique_ids (users sample_world).
Proof.
  unfold unique_ids. simpl.
  repeat constructor; simpl; intuition discriminate.
Qed.

(** Bob is verified: a signup verification with any six characters signs
    him in again. *)
Lemma verify_signup_already_verified_witness :
  emailVerified bob = true /\
  status
    (fst (POST_verification (P := sample_platform) sample_config
            sample_ambient "bob@example.com" "signup"
            (Some (otp_body "000000")) sample_world))
  = 200 /\
  sets_session (P := sample_platform) sample_config "s3cret"
    (now sample_ambient) bob
    (fst (POST_verification (P := sample_platform) sample_config
            sample_ambient "bob@example.com" "signup"
            (Some (otp_body "000000")) sample_world)) /\
  snd (POST_verification (P := sample_platform) sample_config
            sample_ambient "bob@example.com" "signup"
            (Some (otp_body "000000")) sample_world)
  = sample_world.
Proof.
  split; [reflexivity|].
  destruct (proj1 (verify_signup_already_verified (P := sample_platform))
              sample_config sample_ambient "bob@example.com"
              (otp_body "000000") sample_world "s3cret" bob "000000"
              (sample_reaches bob (or_intror (or_introl eq_refl)))
              eq_refl eq_refl)
    as (Hst & _ & Hsess & Hw).
  split; [exact Hst|]. split; [exact Hsess|exact Hw].
Defined.

(** Alice submits a wrong code. *)
Lemma verify_invalid_or_expired_witness :
  otp alice <> Some "000000" /\
  snd (POST_verification (P := sample_platform) sample_config sample_ambient
         "alice@example.com" "signup" (Some (otp_body "000000")) sample_world)
  = sample_world.
Proof.
  split; [discriminate|].
  apply (verify_invalid_or_expired (P := sample_platform)
           sample_config sample_ambient "alice@example.com" "signup"
           (otp_body "000000") sample_world "s3cret" alice "000000").
  - apply (sample_reaches alice). simpl. auto.
  - reflexivity.
  - intros [_ H]. discriminate.
  - split; reflexivity.
Defined.

(** Alice submits her code at the very instant it expires. *)
Lemma verify_signup_success_witness :
  otpExpiry alice = Some (now sample_ambient) /\
  exists verified,
    findOne_id (_id alice)
      (users
         (snd (POST_verification (P := sample_platform) sample_config
              sample_ambient "alice@example.com" "signup"
              (Some (otp_body "123456")) sample_world)))
    = Some verified /\
    emailVerified verified = true /\ otp verified = None /\
    sets_session (P := sample_platform) sample_config "s3cret"
      (now sample_ambient) verified
      (fst (POST_verification (P := sample_platform) sample_config
              sample_ambient "alice@example.com" "signup"
              (Some (otp_body "123456")) sample_world)).
Proof.
  split; [reflexivity|].
  destruct (verify_signup_success (P := sample_platform)
              sample_config sample_ambient "alice@example.com"
              (otp_body "123456") sample_world "s3cret" alice "123456" 1000000)
    as (verified & _ & Hf & Ho & _ & Hv & _ & _ & _ & _ & Hsess).
  - apply (sample_reaches alice). simpl. auto.
  - exact sample_unique_ids.
  - reflexivity.
  - reflexivity.
  - reflexivity.
  - reflexivity.
  - simpl. lia.
  - exists verified.
    split; [exact Hf|]. split; [exact Hv|]. split; [exact Ho|exact Hsess].
Defined.

(** Bob asks to reset his password to the one he has, then to a new one. *)
Lemma reset_password_same_or_new_witness :
  status
    (fst (POST_verification (P := sample_platform) sample_config sample_ambient
            "bob@example.com" "password-reset" (Some (password_body "builder1"))
            sample_world))
  = 400
  /\
  exists updated,
    findOne_id (_id bob)
      (users (snd (POST_verification (P := sample_platform) sample_config
                  sample_ambient "bob@example.com" "password-reset"
                  (Some (password_body "builder2")) sample_world)))
    = Some updated /\
    password updated = Some "bcrypt:builder2" /\
    otp updated = None /\ otpExpiry updated = None /\
    status (fst (POST_verification (P := sample_platform) sample_config
                  sample_ambient "bob@example.com" "password-reset"
                  (Some (password_body "builder2")) sample_world))
    = 200 /\
    sets_session (P := sample_platform) sample_config "s3cret"
      (now sample_ambient) updated
      (fst (POST_verification (P := sample_platform) sample_config
                  sample_ambient "bob@example.com" "password-reset"
                  (Some (password_body "builder2")) sample_world)).
Proof.
  split.
  - apply (proj1 (reset_password_same_or_new (P := sample_platform)
                    sample_config sample_ambient "bob@example.com"
                    "password-reset" (password_body "builder1") sample_world
                    "s3cret" bob "Expected string" "builder1"
                    (sample_reaches bob (or_intror (or_introl eq_refl)))
                    sample_unique_ids eq_refl eq_refl)
             "bcrypt:builder1").
    + reflexivity.
    + discriminate.
    + reflexivity.
  - assert (Hnew : forall hash,
               password bob = Some hash ->
               bcrypt_compare (Platform := sample_platform) "builder2" hash
               = false).
    { intros hash Hhash. injection Hhash as <-. reflexivity. }
    destruct (proj2 (reset_password_same_or_new (P := sample_platform)
                       sample_config sample_ambient "bob@example.com"
                       "password-reset" (password_body "builder2") sample_world
                       "s3cret" bob "Expected string" "builder2"
                       (sample_reaches bob (or_intror (or_introl eq_refl)))
                       sample_unique_ids eq_refl eq_refl) Hnew)
      as (updated & _ & Hfound & Hpw & Hotp & Hexp & _ & _ & _ & _ & Hst & Hsess).
    exists updated.
    repeat split; assumption.
Defined.

(** Alice confirms her code for a password reset. *)
Lemma verify_password_reset_proceeds_witness :
  snd (POST_verification (P := sample_platform) sample_config sample_ambient
         "alice@example.com" "password-reset" (Some (otp_body "123456"))
         sample_world)
  = sample_world.
Proof.
  apply (verify_password_reset_proceeds (P := sample_platform)
           sample_config sample_ambient "alice@example.com" (otp_body "123456")
           sample_world "s3cret" alice "123456" 1000000).
  - apply (sample_reaches alice). simpl. auto.
  - reflexivity.
  - reflexivity.
  - reflexivity.
  - simpl. lia.
Defined.

(** C1, at a concrete request.  Bob has no challenge outstanding (otp and
    otpExpiry are null); a request that carries only a new password is
    answered 200 and replaces his stored credential. *)
Lemma reset_password_without_challenge :
  otp bob = None /\ otpExpiry bob = None /\
  password bob = Some "bcrypt:builder1" /\
  status
    (fst (POST_verification (P := sample_platform) sample_config sample_ambient
            "bob@example.com" "password-reset" (Some (password_body "newsecret"))
            sample_world))
  = 200 /\
  option_map password
    (findOne_id (_id bob)
       (users
          (snd (POST_verification (P := sample_platform) sample_config
                  sample_ambient "bob@example.com" "password-reset"
                  (Some (password_body "newsecret")) sample_world))))
  = Some (Some "bcrypt:newsecret").
Proof. repeat split; reflexivity. Qed.

Lemma reset_password_ignores_challenge_witness :
  otp bob = None /\
  exists updated,
    findOne_id (_id bob)
      (users
         (snd (POST_verification (P := sample_platform) sample_config
                 sample_ambient "bob@example.com" "password-reset"
                 (Some (password_body "newsecret")) sample_world)))
    = Some updated /\
    password updated = Some "bcrypt:newsecret".
Proof.
  split; [reflexivity|].
  destruct (reset_password_ignores_challenge (P := sample_platform)
              sample_config sample_ambient "bob@example.com" "password-reset"
              (password_body "newsecret") sample_world "s3cret" bob
              "Expected string" "newsecret")
    as (updated & Hf & Hp & _).
  - apply (sample_reaches bob). simpl. auto.
  - exact sample_unique_ids.
  - reflexivity.
  - reflexivity.
  - reflexivity.
  - exists updated. split; [exact Hf|exact Hp].
Defined.



(** Bob has an account in the sample collection and none in the empty
    one: forgot-password and resend answer him the same on both. *)
Lemma generic_answers_witness :
  findOne_email (P := sample_platform) "bob@example.com" (users sample_world)
  = Some bob /\
  fst (POST_forgot_password (P := sample_platform) sample_ambient
         (Some (email_body "bob@example.com")) sample_world)
  = fst (POST_forgot_password (P := sample_platform) sample_ambient
           (Some (email_body "bob@example.com"))
           {| users := []; writes := []; outbox := []; slept := 0 |}) /\
  fst (POST_resend_otp (P := sample_platform) sample_ambient
         (Some (resend_body "bob@example.com" "password-reset")) sample_world)
  = fst (POST_resend_otp (P := sample_platform) sample_ambient
           (Some (resend_body "bob@example.com" "password-reset"))
           {| users := []; writes := []; outbox := []; slept := 0 |}) /\
  slept
    (snd (POST_resend_otp (P := sample_platform) sample_ambient
            (Some (resend_body "bob@example.com" "password-reset")) sample_world))
  = 1000.
Proof.
  split; [reflexivity|]. split; [|split].
  - apply (proj2 (generic_answers (P := sample_platform))
             sample_ambient (email_body "bob@example.com")
             "bob@example.com" (Byte.x00, Byte.x01, Byte.xe2, Byte.x40)
             eq_refl eq_refl eq_refl).
  - apply (proj1 (generic_answers (P := sample_platform))
             sample_ambient (resend_body "bob@example.com" "password-reset")
             "bob@example.com" "password-reset"
             (Byte.x00, Byte.x01, Byte.xe2, Byte.x40)
             eq_refl eq_refl eq_refl).
  - apply (proj1 (generic_answers (P := sample_platform))
             sample_ambient (resend_body "bob@example.com" "password-reset")
             "bob@example.com" "password-reset"
             (Byte.x00, Byte.x01, Byte.xe2, Byte.x40)
             eq_refl eq_refl eq_refl sample_world sample_world).
Defined.

(** C3, at a concrete request.  The forgot-password route answers 200
    without having awaited any delay, for an address with an account and for
    one without. *)
Lemma forgot_password_awaits_no_delay :
  status
    (fst (POST_forgot_password (P := sample_platform) sample_ambient
            (Some (email_body "alice@example.com")) sample_world))
  = 200 /\
  slept
    (snd (POST_forgot_password (P := sample_platform) sample_ambient
            (Some (email_body "alice@example.com")) sample_world))
  = slept sample_world /\
  slept
    (snd (POST_forgot_password (P := sample_platform) sample_ambient
            (Some (email_body "nobody@example.com")) sample_world))
  = slept sample_world.
Proof. repeat split; reflexivity. Qed.

(** C4, at concrete requests.  All three refusals have status 401, but the
    account without a password (Carol) is refused with a message of its own,
    which differs from the one shared by an unknown address and by a wrong
    password. *)
Lemma signin_passwordless_account_message :
  let unknown :=
    fst (POST_signin (P := sample_platform) sample_config sample_ambient
           (Some (signin_body "nobody@example.com" "secret1")) sample_world) in
  let passwordless :=
    fst (POST_signin (P := sample_platform) sample_config sample_ambient
           (Some (signin_body "carol@example.com" "secret1")) sample_world) in
  let mismatch :=
    fst (POST_signin (P := sample_platform) sample_config sample_ambient
           (Some (signin_body "bob@example.com" "secret1")) sample_world) in
  status unknown = 401 /\ status passwordless = 401 /\ status mismatch = 401 /\
  body unknown = error_body "Invalid credentials" /\
  body mismatch = error_body "Invalid credentials" /\
  body passwordless
  = error_body "Invalid credentials or account created via different method." /\
  body passwordless <> body unknown.
Proof. cbv zeta. repeat split; try reflexivity. discriminate. Qed.

(** The sample session keeps the collection paired. *)
Lemma otp_fields_stay_paired_witness :
  Forall (fun u => otp_paired u = true)
    (users (run (P := sample_platform) sample_config sample_session sample_world)) /\
  List.length (writes (run (P := sample_platform) sample_config sample_session
                    sample_world)) = 6%nat.
Proof.
  split; [|reflexivity].
  apply (otp_fields_stay_paired (P := sample_platform)
           sample_config sample_session sample_world).
  repeat constructor.
Defined.

(** Alice signs in with her password before she has verified her address. *)
Lemma signin_unverified_issues_challenge_witness :
  status
    (fst (POST_signin (P := sample_platform) sample_config sample_ambient
            (Some (signin_body "alice@example.com" "wonderland")) sample_world))
  = 403.
Proof.
  apply (signin_unverified_issues_challenge (P := sample_platform)
           sample_config sample_ambient
           (signin_body "alice@example.com" "wonderland") sample_world
           "s3cret" "alice@example.com" "wonderland" alice "bcrypt:wonderland"
           (Byte.x00, Byte.x01, Byte.xe2, Byte.x40));
    reflexivity || discriminate.
Defined.

(* ------------------------------------------------------------------ *)
(** ** The shape of a generated code *)

Lemma string_of_uint_digits (d : Decimal.uint) :
  String.length (NilEmpty.string_of_uint d) = Decimal.nb_digits d /\
  all_digits (NilEmpty.string_of_uint d) = true.
Proof.
  induction d as [|d [IHl IHd]|d [IHl IHd]|d [IHl IHd]|d [IHl IHd]|d [IHl IHd]
                  |d [IHl IHd]|d [IHl IHd]|d [IHl IHd]|d [IHl IHd]|d [IHl IHd]];
    simpl; auto.
Qed.

(** The accumulator of [Pos.of_uint_acc] is shifted by one decimal place
    per digit read. *)
Lemma of_uint_acc_lower (l : Decimal.uint) :
  forall acc : positive,
    (N.pos acc * 10 ^ N.of_nat (Decimal.nb_digits l)
     <= N.pos (Pos.of_uint_acc l acc))%N.
Proof.
  induction l; intro acc;
    try (cbn [Pos.of_uint_acc Decimal.nb_digits];
         rewrite Nat2N.inj_succ, N.pow_succ_r', N.mul_assoc;
         eapply N.le_trans; [|apply IHl];
         apply N.mul_le_mono_r; lia).
  simpl. lia.
Qed.

(** A number below one million prints with at most six digits. *)
Lemma to_uint_six (n : N) :
  (n < 1000000)%N -> (Decimal.nb_digits (N.to_uint n) <= 6)%nat.
Proof.
  intro Hn. destruct n as [|p]; [simpl; lia|].
  change (N.to_uint (N.pos p)) with (Pos.to_uint p).
  pose proof (DecimalPos.Unsigned.of_to p) as Hof.
  pose proof (DecimalPos.Unsigned.to_of (Pos.to_uint p)) as Hnorm.
  rewrite Hof in Hnorm. change (N.to_uint (N.pos p)) with (Pos.to_uint p) in Hnorm.
  destruct (Nat.le_gt_cases (Decimal.nb_digits (Pos.to_uint p)) 6) as [H|H];
    [exact H|exfalso].
  destruct (Pos.to_uint p) as [|l|l|l|l|l|l|l|l|l|l] eqn:E;
    try (simpl in H;
         match type of Hof with
         | Pos.of_uint (_ l) = _ =>
             cbn [Pos.of_uint] in Hof;
             match type of Hof with
             | N.pos (Pos.of_uint_acc l ?k) = _ =>
                 pose proof (of_uint_acc_lower l k) as Hlow
             end
         end;
         rewrite Hof in Hlow;
         assert (10 ^ 6 <= 10 ^ N.of_nat (Decimal.nb_digits l))%N
           by (apply N.pow_le_mono_r; lia);
         change (10 ^ 6)%N with 1000000%N in *; nia).
  - simpl in H. lia.
  - (* a leading zero is not printed *)
    unfold Decimal.unorm in Hnorm. simpl in Hnorm.
    pose proof (DecimalFacts.nb_digits_nzhead l) as Hz.
    destruct (Decimal.nzhead l) eqn:Ez; inversion Hnorm; subst;
      simpl in *; lia.
Qed.

Lemma repeat_char_length (c : ascii) (n : nat) :
  String.length (repeat_char c n) = n.
Proof. induction n; simpl; auto. Qed.

Lemma string_length_append (a b : string) :
  String.length (a ++ b) = (String.length a + String.length b)%nat.
Proof. induction a; simpl; auto. Qed.

Lemma all_digits_append (a b : string) :
  all_digits (a ++ b) = all_digits a && all_digits b.
Proof.
  induction a as [|c a IH]; simpl; [reflexivity|].
  now rewrite IH, andb_assoc.
Qed.

Lemma all_digits_zeros (n : nat) : all_digits (repeat_char "0" n) = true.
Proof. induction n; simpl; auto. Qed.

(** Reading back a printed number with zeros in front. *)
Lemma uint_of_string_zeros (k : nat) (d : Decimal.uint) :
  NilEmpty.uint_of_string (repeat_char "0" k ++ NilEmpty.string_of_uint d)
  = Some (Nat.iter k Decimal.D0 d).
Proof.
  induction k as [|k IH]; simpl.
  - apply NilEmpty.usu.
  - unfold uint_of_char. simpl. now rewrite IH.
Qed.

Lemma of_uint_zeros (k : nat) (d : Decimal.uint) :
  N.of_uint (Nat.iter k Decimal.D0 d) = N.of_uint d.
Proof. induction k as [|k IH]; simpl; auto. Qed.

(** X2. The code [generateOTP] returns, whenever the random source answers:
    six characters, all decimal digits, which read back as the four random
    bytes (big-endian) modulo one million. *)
Theorem generateOTP_six_digits :
  forall amb bytes,
    randomBytes4 amb = Some bytes ->
    exists code d,
      generateOTP amb = Some code /\
      String.length code = 6%nat /\
      all_digits code = true /\
      NilEmpty.uint_of_string code = Some d /\
      Z.of_N (N.of_uint d) = parseInt_hex4 bytes mod 1000000.
Proof.
  intros amb bytes Hrand. unfold generateOTP. rewrite Hrand.
  set (n := parseInt_hex4 bytes mod 1000000).
  assert (Hn : 0 <= n < 1000000) by (apply Z.mod_pos_bound; lia).
  assert (Hsix : (Decimal.nb_digits (N.to_uint (Z.to_N n)) <= 6)%nat)
    by (apply to_uint_six; lia).
  unfold padStart, toString, NilZero.string_of_uint.
  destruct (N.to_uint (Z.to_N n)) as [|l|l|l|l|l|l|l|l|l|l] eqn:E.
  { exfalso. destruct (Z.to_N n); simpl in E; [discriminate|].
    now apply (DecimalPos.Unsigned.to_uint_nonnil p). }
  all: match goal with
       | |- context [NilEmpty.string_of_uint ?d] =>
           destruct (string_of_uint_digits d) as [Hlen Hdig];
           exists (repeat_char "0" (6 - String.length (NilEmpty.string_of_uint d))
                   ++ NilEmpty.string_of_uint d)%string,
                  (Nat.iter (6 - String.length (NilEmpty.string_of_uint d))
                     Decimal.D0 d);
           split; [reflexivity|];
           split; [rewrite string_length_append, repeat_char_length, Hlen; lia|];
           split; [now rewrite all_digits_append, all_digits_zeros, Hdig|];
           split; [apply uint_of_string_zeros|];
           rewrite of_uint_zeros, <- E, DecimalN.Unsigned.of_to; lia
       end.
Qed.

(* ------------------------------------------------------------------ *)
(** ** A challenge from its issue to its use *)

Section ChallengeLifecycle.
Context {P : Platform}.

Lemma unique_ids_updateOne (id : ObjectId) (sets : list FieldSet)
    (docs : list User) :
  unique_ids docs -> unique_ids (updateOne_docs id sets docs).
Proof. unfold unique_ids. now rewrite updateOne_docs_ids. Qed.

(** A generated code is not empty and is accepted as the [otp] of a body. *)
Lemma generated_code_accepted (amb : Ambient) (code : string) :
  generateOTP amb = Some code ->
  (code =? "")%string = false /\
  otpVerificationSchema (otp_body code) = success code.
Proof.
  intro Hgen. unfold generateOTP in Hgen.
  destruct (randomBytes4 amb) as [bytes|] eqn:Hrand; [|discriminate].
  destruct (generateOTP_six_digits amb bytes Hrand)
    as (code' & d & Hgen' & Hlen & _).
  unfold generateOTP in Hgen'. rewrite Hrand in Hgen'.
  rewrite Hgen' in Hgen. inversion Hgen; subst code'.
  split.
  - destruct code; [discriminate|reflexivity].
  - unfold otpVerificationSchema, otp_body, z_string_length, z_string, strlen.
    simpl. now rewrite Hlen.
Qed.

(** The test of the verification route on a document that has just been
    issued the submitted code: it passes until ten minutes have gone. *)
Lemma issued_code_test (amb1 amb2 : Ambient) (user : User) (code : string) :
  generateOTP amb1 = Some code ->
  otp_rejected amb2 (apply_sets user (issue_sets amb1 code)) code
  = (now amb1 + 600000 <? now amb2).
Proof.
  intro Hgen. destruct (generated_code_accepted amb1 code Hgen) as [Hne _].
  unfold otp_rejected, otp_deadline. simpl.
  now rewrite Hne, String.eqb_refl.
Qed.

(** X3. A code issued by the forgot-password route is mailed to the stored
    address of the account and is the one the verification route then
    accepts: submitted for a password reset, it is confirmed up to ten
    minutes after its issue (the bound included) and refused afterwards; in
    both cases the verification changes nothing. *)
Theorem forgot_password_then_verify :
  forall cfg amb1 amb2 rawEmail address reqJson w secret user bytes,
    reaches cfg rawEmail w secret user ->
    unique_ids (users w) ->
    forgotPasswordSchema reqJson = success address ->
    findOne_email address (users w) = Some user ->
    randomBytes4 amb1 = Some bytes ->
    let issued := snd (POST_forgot_password amb1 (Some reqJson) w) in
    exists code,
      generateOTP amb1 = Some code /\
      outbox issued = OTPEmail (email user) code "password-reset" :: outbox w /\
      let out :=
        POST_verification cfg amb2 rawEmail "password-reset"
          (Some (otp_body code)) issued in
      snd out = issued /\
      (now amb2 <= now amb1 + 600000 -> fst out = proceed_response) /\
      (now amb1 + 600000 < now amb2 -> fst out = invalid_otp_response).
Proof.
  intros cfg amb1 amb2 rawEmail address reqJson w secret user bytes
    Hr Hu Hp Hf Hrand.
  destruct (generateOTP amb1) as [code|] eqn:Hgen;
    [|unfold generateOTP in Hgen; rewrite Hrand in Hgen; discriminate].
  destruct (generated_code_accepted amb1 code Hgen) as [Hne Hacc].
  pose proof (issued_code_test amb1 amb2 user code Hgen) as Htest.
  destruct Hr as (Hsec & decoded & Hdec & Hfind).
  pose proof (findOne_email_updateOne _ (issue_sets amb1 code) _ Hu _ Hfind)
    as Hfe.
  cbv zeta. exists code. split; [reflexivity|].
  unfold POST_forgot_password.
  rewrite Hp, (found_not_throws _ _ _ Hf), Hf, Hgen. simpl.
  split; [reflexivity|].
  unfold POST_verification. rewrite Hsec, Hdec. simpl users.
  rewrite (found_not_throws _ _ _ Hfe), Hfe, Hacc. simpl "&&". rewrite Htest.
  destruct (now amb1 + 600000 <? now amb2) eqn:E; simpl.
  - apply Z.ltb_lt in E.
    split; [reflexivity|split; intro; [lia|reflexivity]].
  - apply Z.ltb_ge in E.
    split; [reflexivity|split; intro; [reflexivity|lia]].
Qed.

(** After an update of the document an address finds, the collection
    still has unique ids, and the address and the id both find the updated
    document. *)
Lemma updated_lookup (e : string) (sets : list FieldSet) (docs : list User)
    (u : User) :
  unique_ids docs ->
  findOne_email e docs = Some u ->
  unique_ids (updateOne_docs (_id u) sets docs) /\
  findOne_email e (updateOne_docs (_id u) sets docs) = Some (apply_sets u sets) /\
  findOne_id (_id u) (updateOne_docs (_id u) sets docs) = Some (apply_sets u sets).
Proof.
  intros Hu Hf. split; [now apply unique_ids_updateOne|].
  split; [now apply findOne_email_updateOne|].
  apply findOne_id_updateOne, findOne_id_unique; [assumption|].
  now apply findOne_email_In in Hf.
Qed.

(** The same, for a second address that finds the same document. *)
Lemma updated_lookup_other (e e' : string) (sets : list FieldSet)
    (docs : list User) (u : User) :
  unique_ids docs ->
  findOne_email e docs = Some u ->
  findOne_email e' docs = Some u ->
  findOne_email e' (updateOne_docs (_id u) sets docs) = Some (apply_sets u sets).
Proof. intros Hu _ Hf'. now apply findOne_email_updateOne. Qed.

(** X4. From an unverified account to a session.  Signing in with the
    right password before the address is verified issues a code; submitting
    that code to the verification route within ten minutes answers 200; the
    same sign-in request then answers 200, sets the session cookie of the
    account, and leaves the account verified, without a challenge, its
    lastLogin at the time of that sign-in. *)
Theorem signin_verify_signin :
  forall cfg amb1 amb2 amb3 rawEmail reqJson w secret address pw user hash bytes,
    reaches cfg rawEmail w secret user ->
    unique_ids (users w) ->
    signinSchema reqJson = success (address, pw) ->
    findOne_email address (users w) = Some user ->
    password user = Some hash -> hash <> "" ->
    bcrypt_compare pw hash = true ->
    emailVerified user = false ->
    randomBytes4 amb1 = Some bytes ->
    now amb2 <= now amb1 + 600000 ->
    let refused := POST_signin cfg amb1 (Some reqJson) w in
    exists code,
      generateOTP amb1 = Some code /\
      let verified :=
        POST_verification cfg amb2 rawEmail "signup" (Some (otp_body code))
          (snd refused) in
      let again := POST_signin cfg amb3 (Some reqJson) (snd verified) in
      status (fst refused) = 403 /\
      status (fst verified) = 200 /\
      status (fst again) = 200 /\
      cookies (fst again)
      = [auth_cookie cfg (jwt_sign (session_of user) secret "7d" (now amb3))] /\
      sets_session cfg secret (now amb3) user (fst again) /\
      exists account,
        findOne_id (_id user) (users (snd again)) = Some account /\
        emailVerified account = true /\
        otp account = None /\ otpExpiry account = None /\
        lastLogin account = Some (now amb3).
Proof.
  intros cfg amb1 amb2 amb3 rawEmail reqJson w secret address pw user hash bytes
    Hr Hu Hp Hf Hpw Hne Hcmp Hv Hrand Hle.
  destruct (generateOTP amb1) as [code|] eqn:Hgen;
    [|unfold generateOTP in Hgen; rewrite Hrand in Hgen; discriminate].
  destruct (generated_code_accepted amb1 code Hgen) as [_ Hacc].
  pose proof (issued_code_test amb1 amb2 user code Hgen) as Htest.
  assert (Hok : (now amb1 + 600000 <? now amb2) = false) by (apply Z.ltb_ge; lia).
  rewrite Hok in Htest.
  destruct Hr as (Hsec & decoded & Hdec & Hfind).
  apply String.eqb_neq in Hne.
  (* the account after the refused sign-in *)
  destruct (updated_lookup _ (issue_sets amb1 code) _ _ Hu Hfind)
    as (Hu1 & Hfind1 & _).
  pose proof (updated_lookup_other _ address (issue_sets amb1 code) _ _ Hu Hfind Hf)
    as Hf1.
  assert (Hfacts1 :
            emailVerified (apply_sets user (issue_sets amb1 code)) = false /\
            password (apply_sets user (issue_sets amb1 code)) = Some hash /\
            session_of (apply_sets user (issue_sets amb1 code)) = session_of user)
    by (repeat split; assumption).
  remember (apply_sets user (issue_sets amb1 code)) as u1 eqn:Eu1.
  remember (updateOne_docs (_id user) (issue_sets amb1 code) (users w)) as docs1
    eqn:Ed1.
  destruct Hfacts1 as (Hv1 & Hpw1 & Hs1).
  (* the account after the verification *)
  destruct (updated_lookup _ (verified_sets amb2) _ _ Hu1 Hfind1)
    as (Hu2 & _ & Hid2).
  pose proof (updated_lookup_other _ address (verified_sets amb2) _ _
                Hu1 Hfind1 Hf1) as Hf2.
  assert (Hfacts2 :
            emailVerified (apply_sets u1 (verified_sets amb2)) = true /\
            password (apply_sets u1 (verified_sets amb2)) = Some hash /\
            otp (apply_sets u1 (verified_sets amb2)) = None /\
            otpExpiry (apply_sets u1 (verified_sets amb2)) = None /\
            session_of (apply_sets u1 (verified_sets amb2)) = session_of user /\
            _id (apply_sets u1 (verified_sets amb2)) = _id user).
  { rewrite <- Hs1, <- Hpw1, Eu1. repeat split. }
  remember (apply_sets u1 (verified_sets amb2)) as u2 eqn:Eu2.
  remember (updateOne_docs (_id u1) (verified_sets amb2) docs1) as docs2 eqn:Ed2.
  destruct Hfacts2 as (Hv2 & Hpw2 & Ho2 & He2 & Hs2 & Hi2).
  (* the account after the second sign-in *)
  destruct (updated_lookup _ [set_lastLogin (now amb3); set_updatedAt (now amb3)]
              _ _ Hu2 Hf2) as (_ & _ & Hid3).
  assert (Hfirst : POST_signin cfg amb1 (Some reqJson) w
                   = (fst (POST_signin cfg amb1 (Some reqJson) w),
                      {| users := docs1;
                         writes := UpdateOne (_id user) (issue_sets amb1 code)
                                   :: writes w;
                         outbox := OTPEmail (email user) code "signup" :: outbox w;
                         slept := slept w |}) /\
                   status (fst (POST_signin cfg amb1 (Some reqJson) w)) = 403).
  { unfold POST_signin.
    rewrite Hsec, Hp, (found_not_throws _ _ _ Hf), Hf, Hpw.
    simpl. rewrite Hne. simpl.
    rewrite Hcmp, Hv, Hgen. simpl. rewrite Ed1. split; reflexivity. }
  destruct Hfirst as [Hfirst Hst1].
  cbv zeta. exists code. split; [reflexivity|].
  split; [exact Hst1|]. rewrite Hfirst. simpl snd.
  assert (Hsecond :
    exists w2,
      POST_verification cfg amb2 rawEmail "signup" (Some (otp_body code))
        {| users := docs1;
           writes := UpdateOne (_id user) (issue_sets amb1 code) :: writes w;
           outbox := OTPEmail (email user) code "signup" :: outbox w;
           slept := slept w |}
      = (setAuthCookie cfg
           (NextResponse_json (JObj [("user", user_json u2)]) 200)
           (generateJWT secret amb2 u2),
         w2) /\
      users w2 = docs2).
  { unfold POST_verification. rewrite Hsec, Hdec. simpl users.

    rewrite (found_not_throws _ _ _ Hfind1), Hfind1, Hacc, Hv1.
    simpl "&&". rewrite Htest.
    unfold updateOne, sendMail. simpl. rewrite <- Ed2, Hid2.
    eexists. split; reflexivity. }
  destruct Hsecond as (w2 & Hsecond & Hw2).
  rewrite Hsecond. simpl fst. simpl snd.
  split; [reflexivity|].
  unfold POST_signin.
  rewrite Hsec, Hp, Hw2, (found_not_throws _ _ _ Hf2), Hf2, Hpw2.
  simpl truthy. rewrite Hne. simpl or_else. rewrite Hne.
  simpl negb. rewrite Hcmp, Hv2. simpl. rewrite Hs2, Hw2.
  split; [reflexivity|]. split; [reflexivity|].
  split; [apply sets_session_of_cookies; reflexivity|].
  exists (apply_sets u2 [set_lastLogin (now amb3); set_updatedAt (now amb3)]).
  rewrite <- Hi2. split; [exact Hid3|]. simpl. auto.
Qed.

(** X5. A code is used once.  After a signup verification has succeeded,
    no code at all is accepted for a password reset of that account, at any
    time, until a new one is issued: the request is answered
    [Invalid or expired OTP.] and changes nothing. *)
Theorem consumed_code_is_refused :
  forall cfg amb1 amb2 rawEmail reqJson w secret user submitted deadline
         anyJson anyCode,
    reaches cfg rawEmail w secret user ->
    unique_ids (users w) ->
    otpVerificationSchema reqJson = success submitted ->
    emailVerified user = false ->
    otp user = Some submitted ->
    otpExpiry user = Some deadline ->
    now amb1 <= deadline ->
    otpVerificationSchema anyJson = success anyCode ->
    let first := POST_verification cfg amb1 rawEmail "signup" (Some reqJson) w in
    let second :=
      POST_verification cfg amb2 rawEmail "password-reset" (Some anyJson)
        (snd first) in
    status (fst first) = 200 /\
    fst second = invalid_otp_response /\
    snd second = snd first.
Proof.
  intros cfg amb1 amb2 rawEmail reqJson w secret user submitted deadline
    anyJson anyCode Hr Hu Hp Hv Ho He Hle Hany.
  pose proof (otpVerificationSchema_length _ _ Hp) as Hlen.
  assert (Hrej : otp_rejected amb1 user submitted = false).
  { destruct (otp_rejected amb1 user submitted) eqn:E; [|reflexivity].
    apply otp_rejected_iff in E; [|assumption].
    destruct E as [H|[H|[H|(d & Hd & Hlt)]]]; try congruence.
    rewrite He in Hd. inversion Hd; subst. lia. }
  destruct Hr as (Hsec & decoded & Hdec & Hfind).
  destruct (updated_lookup _ (verified_sets amb1) _ _ Hu Hfind)
    as (_ & Hfind1 & Hid1).
  cbv zeta.
  assert (Hfirst :
    exists w1,
      POST_verification cfg amb1 rawEmail "signup" (Some reqJson) w
      = (setAuthCookie cfg
           (NextResponse_json
              (JObj [("user", user_json (apply_sets user (verified_sets amb1)))])
              200)
           (generateJWT secret amb1 (apply_sets user (verified_sets amb1))),
         w1) /\
      users w1 = updateOne_docs (_id user) (verified_sets amb1) (users w)).
  { unfold POST_verification.
    rewrite Hsec, Hdec, (found_not_throws _ _ _ Hfind), Hfind, Hp, Hv, Hrej.
    simpl. rewrite Hid1. eexists. split; reflexivity. }
  destruct Hfirst as (w1 & Hfirst & Hw1). rewrite Hfirst. simpl fst. simpl snd.
  split; [reflexivity|].
  unfold POST_verification.
  rewrite Hsec, Hdec, Hw1, (found_not_throws _ _ _ Hfind1), Hfind1, Hany.
  simpl. split; reflexivity.
Qed.

(** X6. The last code issued is the valid one.  After two forgot-password
    requests for the same account, the first code is refused when it differs
    from the second, and the second is confirmed up to ten minutes after the
    second request. *)
Theorem latest_code_wins :
  forall cfg amb1 amb2 amb3 rawEmail address reqJson w secret user code1 code2,
    reaches cfg rawEmail w secret user ->
    unique_ids (users w) ->
    forgotPasswordSchema reqJson = success address ->
    findOne_email address (users w) = Some user ->
    generateOTP amb1 = Some code1 ->
    generateOTP amb2 = Some code2 ->
    let w1 := snd (POST_forgot_password amb1 (Some reqJson) w) in
    let w2 := snd (POST_forgot_password amb2 (Some reqJson) w1) in
    let verify code :=
      fst (POST_verification cfg amb3 rawEmail "password-reset"
             (Some (otp_body code)) w2) in
    (code1 <> code2 -> verify code1 = invalid_otp_response) /\
    (now amb3 <= now amb2 + 600000 -> verify code2 = proceed_response).
Proof.
  intros cfg amb1 amb2 amb3 rawEmail address reqJson w secret user code1 code2
    Hr Hu Hp Hf Hg1 Hg2.
  destruct (generated_code_accepted amb1 code1 Hg1) as [Hne1 Hacc1].
  destruct (generated_code_accepted amb2 code2 Hg2) as [Hne2 Hacc2].
  destruct Hr as (Hsec & decoded & Hdec & Hfind).
  destruct (updated_lookup _ (issue_sets amb1 code1) _ _ Hu Hfind)
    as (Hu1 & Hfind1 & _).
  pose proof (updated_lookup_other _ address (issue_sets amb1 code1) _ _
                Hu Hfind Hf) as Hf1.
  remember (apply_sets user (issue_sets amb1 code1)) as u1 eqn:Eu1.
  remember (updateOne_docs (_id user) (issue_sets amb1 code1) (users w)) as docs1
    eqn:Ed1.
  destruct (updated_lookup _ (issue_sets amb2 code2) _ _ Hu1 Hfind1)
    as (_ & Hfind2 & _).
  pose proof (issued_code_test amb2 amb3 u1 code2 Hg2) as Htest.
  remember (apply_sets u1 (issue_sets amb2 code2)) as u2 eqn:Eu2.
  assert (Ho2 : otp u2 = Some code2 /\ otpExpiry u2 = Some (otp_deadline amb2))
    by (rewrite Eu2; split; reflexivity).
  destruct Ho2 as [Ho2 He2].
  assert (Hw1 : users (snd (POST_forgot_password amb1 (Some reqJson) w)) = docs1).
  { unfold POST_forgot_password.
    rewrite Hp, (found_not_throws _ _ _ Hf), Hf, Hg1. simpl. now rewrite Ed1. }
  assert (Hw2 : users (snd (POST_forgot_password amb2 (Some reqJson)
                              (snd (POST_forgot_password amb1 (Some reqJson) w))))
                = updateOne_docs (_id u1) (issue_sets amb2 code2) docs1).
  { unfold POST_forgot_password at 1.
    rewrite Hp, Hw1, (found_not_throws _ _ _ Hf1), Hf1, Hg2.
    unfold sendMail, updateOne. cbn [users snd fst]. now rewrite Hw1. }
  cbv zeta. split.
  - intro Hdiff. unfold POST_verification.

    rewrite Hsec, Hdec, Hw2, (found_not_throws _ _ _ Hfind2), Hfind2, Hacc1.
    simpl "&&".
    assert (Hrej : otp_rejected amb3 u2 code1 = true).
    { unfold otp_rejected. rewrite Ho2, He2. simpl. rewrite Hne2. simpl.
      destruct (String.eqb_spec code2 code1) as [Heq|_]; [|reflexivity].
      now elim Hdiff. }
    now rewrite Hrej.
  - intro Hle. unfold POST_verification.

    rewrite Hsec, Hdec, Hw2, (found_not_throws _ _ _ Hfind2), Hfind2, Hacc2.
    simpl "&&".
    assert (Hok : (now amb2 + 600000 <? now amb3) = false)
      by (apply Z.ltb_ge; lia).
    rewrite Htest, Hok. reflexivity.
Qed.

(** X7. After a password reset has completed, signing in with the new
    password answers 200 and sets the session cookie of the account, even if
    the account was not verified before; and asking again for the same
    password is refused as a repetition.  bcrypt is assumed to recognise the
    hash it has just produced. *)
Theorem reset_then_signin :
  forall cfg amb1 amb2 rawEmail type reqJson signinJson w secret user m
         newPassword address,
    reaches cfg rawEmail w secret user ->
    unique_ids (users w) ->
    otpVerificationSchema reqJson = failure m ->
    passwordResetBodySchema reqJson = success newPassword ->
    truthy (password user)
    && bcrypt_compare newPassword (or_else (password user) "") = false ->
    signinSchema signinJson = success (address, newPassword) ->
    findOne_email address (users w) = Some user ->
    bcrypt_hash newPassword 10 (salt amb1) <> "" ->
    bcrypt_compare newPassword (bcrypt_hash newPassword 10 (salt amb1)) = true ->
    let reset := POST_verification cfg amb1 rawEmail type (Some reqJson) w in
    let signin := POST_signin cfg amb2 (Some signinJson) (snd reset) in
    let again :=
      POST_verification cfg amb2 rawEmail type (Some reqJson) (snd reset) in
    status (fst reset) = 200 /\
    status (fst signin) = 200 /\
    cookies (fst signin)
    = [auth_cookie cfg (jwt_sign (session_of user) secret "7d" (now amb2))] /\
    sets_session cfg secret (now amb2) user (fst signin) /\
    fst again = same_password_response /\
    snd again = snd reset.
Proof.
  intros cfg amb1 amb2 rawEmail type reqJson signinJson w secret user m
    newPassword address Hr Hu Hno Hp Hd Hs Hf Hne Hcmp.
  destruct (reset_password_completes cfg amb1 rawEmail type reqJson w secret
              user m newPassword Hr Hu Hno Hp Hd) as (_ & Hw1 & _ & Hresp).
  destruct Hr as (Hsec & decoded & Hdec & Hfind).
  set (sets := reset_sets amb1 (bcrypt_hash newPassword 10 (salt amb1))) in *.
  destruct (updated_lookup _ sets _ _ Hu Hfind) as (_ & Hfind1 & _).
  pose proof (updated_lookup_other _ address sets _ _ Hu Hfind Hf) as Hf1.
  assert (Hfacts :
            password (apply_sets user sets)
            = Some (bcrypt_hash newPassword 10 (salt amb1)) /\
            emailVerified (apply_sets user sets) = true /\
            session_of (apply_sets user sets) = session_of user)
    by (repeat split).
  remember (apply_sets user sets) as u1 eqn:Eu1.
  destruct Hfacts as (Hpw1 & Hv1 & Hs1).
  apply String.eqb_neq in Hne.
  cbv zeta. rewrite Hresp. split; [reflexivity|].
  split; [|split; [|split]].
  - unfold POST_signin.
    rewrite Hsec, Hs, Hw1, (found_not_throws _ _ _ Hf1), Hf1, Hpw1.
    simpl truthy. rewrite Hne. simpl or_else. rewrite Hne. simpl negb.
    rewrite Hcmp, Hv1. reflexivity.
  - unfold POST_signin.
    rewrite Hsec, Hs, Hw1, (found_not_throws _ _ _ Hf1), Hf1, Hpw1.
    simpl truthy. rewrite Hne. simpl or_else. rewrite Hne. simpl negb.
    rewrite Hcmp, Hv1. simpl. now rewrite Hs1.
  - apply sets_session_of_cookies. unfold POST_signin.
    rewrite Hsec, Hs, Hw1, (found_not_throws _ _ _ Hf1), Hf1, Hpw1.
    simpl truthy. rewrite Hne. simpl or_else. rewrite Hne. simpl negb.
    rewrite Hcmp, Hv1. simpl. now rewrite Hs1.
  - assert (Hagain :
        POST_verification cfg amb2 rawEmail type (Some reqJson)
          (snd (POST_verification cfg amb1 rawEmail type (Some reqJson) w))
        = (same_password_response,
           snd (POST_verification cfg amb1 rawEmail type (Some reqJson) w))).
    { unfold POST_verification at 1.
      rewrite Hsec, Hdec, Hw1, (found_not_throws _ _ _ Hfind1), Hfind1, Hno, Hp, Hpw1.
      simpl truthy. rewrite Hne. simpl or_else. rewrite Hne. simpl negb.
      rewrite Hcmp. reflexivity. }
    rewrite Hagain. split; reflexivity.
Qed.

End ChallengeLifecycle.

(* ------------------------------------------------------------------ *)
(** ** One write per request *)

Section Writes.
Context {P : Platform}.

Ltac same := left; split; reflexivity.
Ltac wrote := right; eexists; split; [|reflexivity]; reflexivity.

(** A request sends at most one write to the store. *)
Lemma handle_one_write (cfg : Config) (amb : Ambient) (c : Call) (w : World) :
  one_write w (snd (handle cfg amb c w)).
Proof.
  destruct c as [b| |e t b|tok|b|b|tok]; simpl.
  - unfold POST_signin, sendMail.
    destruct (defined_secret cfg); [|same].
    destruct b as [reqJson|]; [|same].
    destruct (signinSchema reqJson) as [[address pw]|]; [|same].
    destruct (findOne_throws address); [same|].
    destruct (findOne_email address (users w)) as [user|]; [|same].
    destruct (negb (truthy (password user))); [same|].
    destruct (negb (bcrypt_compare pw (or_else (password user) ""))); [same|].
    destruct (negb (emailVerified user)); [|wrote].
    destruct (generateOTP amb) as [newOtp|]; [wrote|same].
  - same.
  - unfold POST_verification, sendMail.
    destruct (defined_secret cfg) as [secret|]; [|same].
    destruct (decodeURIComponent e) as [decoded|]; [|same].
    destruct b as [reqJson|]; [|same].
    destruct (findOne_throws (toLowerCase decoded)); [same|].
    destruct (findOne_email (toLowerCase decoded) (users w)) as [user|]; [|same].
    destruct (otpVerificationSchema reqJson) as [submitted|].
    + destruct ((t =? "signup")%string && emailVerified user); [same|].
      destruct (otp_rejected amb user submitted); [same|].
      destruct (t =? "signup")%string.
      * simpl.
        destruct (findOne_id (_id user)
                    (updateOne_docs (_id user) (verified_sets amb) (users w)));
          wrote.
      * destruct (t =? "password-reset")%string; same.
    + destruct (passwordResetBodySchema reqJson) as [newPassword|]; [|same].
      destruct (truthy (password user)
                && bcrypt_compare newPassword (or_else (password user) ""));
        [same|].
      set (sets := reset_sets amb (bcrypt_hash newPassword 10 (salt amb))).
      destruct (negb (emailVerified user)); simpl;
        [destruct (delivers amb _); simpl|];
        destruct (findOne_id (_id user) (updateOne_docs (_id user) sets (users w)));
        wrote.
  - unfold DELETE_account.
    destruct (defined_secret cfg) as [secret|]; [|same].
    destruct (negb (truthy tok)); [same|].
    destruct (jwt_verify (or_else tok "") secret (now amb)) as [session|];
      [|same].
    destruct (negb (truthy (userId session))); [same|].
    destruct (ObjectId_new (or_else (userId session) "")) as [oid|]; [|same].
    unfold deleteOne.
    destruct (deleteOne_docs oid (users w)) as [docs n] eqn:E.
    right. exists (DeleteOne oid). simpl. rewrite E.
    destruct (n =? 0); split; reflexivity.
  - unfold POST_resend_otp, sendMail.
    destruct b as [reqJson|]; [|same].
    destruct (resendOtpSchema reqJson) as [[address t]|]; [|same].
    destruct (findOne_throws address); [same|].
    destruct (findOne_email address (users w)) as [user|]; [|same].
    destruct ((t =? "signup")%string && emailVerified user); [same|].
    destruct (generateOTP amb) as [newOtp|]; [wrote|same].
  - unfold POST_forgot_password, sendMail.
    destruct b as [reqJson|]; [|same].
    destruct (forgotPasswordSchema reqJson) as [address|]; [|same].
    destruct (findOne_throws address); [same|].
    destruct (findOne_email address (users w)) as [user|]; [|same].
    destruct (generateOTP amb) as [newOtp|]; [wrote|same].
  - unfold GET_me, GET_me_on.
    destruct (defined_secret cfg) as [secret|]; [|same].
    destruct (negb (truthy tok)); [same|].
    destruct (jwt_verify (or_else tok "") secret (now amb)) as [session|];
      [|same].
    destruct (negb (truthy (userId session)) || negb (truthy (s_email session)));
      [same|].
    destruct (ObjectId_new (or_else (userId session) "")) as [oid|]; [|same].
    destruct (findOne_id oid (users w)); same.
Qed.

(** X8. Every request sends at most one write to the store, and the
    collection is always the replay of the writes logged: after any sequence
    of requests, the log has grown by at most one write per request, and
    replaying what was added on the initial collection gives the final one. *)
Theorem collection_is_replay_of_writes :
  forall cfg reqs w,
    exists added,
      writes (run cfg reqs w) = (added ++ writes w)%list /\
      (List.length added <= List.length reqs)%nat /\
      users (run cfg reqs w) = replay added (users w).
Proof.
  intros cfg reqs. induction reqs as [|[amb c] rest IH]; intro w; simpl.
  - exists []. repeat split; auto.
  - destruct (IH (snd (handle cfg amb c w))) as (added & Hw & Hlen & Hu).
    destruct (handle_one_write cfg amb c w) as [[Hsu Hsw]|(wr & Hsu & Hsw)].
    + exists added. rewrite Hw, Hu, Hsu, Hsw. repeat split; auto.
    + exists (added ++ [wr])%list. rewrite Hw, Hu, Hsu, Hsw. split; [|split].
      * now rewrite <- app_assoc.
      * rewrite length_app. simpl. lia.
      * clear. induction added as [|a added IH]; simpl; [reflexivity|].
        now rewrite IH.
Qed.

End Writes.

(* ------------------------------------------------------------------ *)
(** ** What no request changes *)

Lemma apply_set_identity (u : User) (f : FieldSet) :
  identity_of (apply_set u f) = identity_of u.
Proof. destruct f; reflexivity. Qed.

Lemma apply_sets_identity (sets : list FieldSet) :
  forall u, identity_of (apply_sets u sets) = identity_of u.
Proof.
  unfold apply_sets. induction sets as [|f sets IH]; intro u; simpl.
  - reflexivity.
  - rewrite IH. apply apply_set_identity.
Qed.

Lemma updateOne_docs_identity (id : ObjectId) (sets : list FieldSet)
    (docs : list User) (v' : User) :
  In v' (updateOne_docs id sets docs) ->
  exists v, In v docs /\ identity_of v' = identity_of v.
Proof.
  induction docs as [|u rest IH]; simpl; [contradiction|].
  destruct (_id u =? id)%string; simpl.
  - intros [Heq|Hin].
    + exists u. split; [now left|]. rewrite <- Heq. apply apply_sets_identity.
    + exists v'. split; [now right|reflexivity].
  - intros [Heq|Hin].
    + exists v'. split; [now left|reflexivity].
    + destruct (IH Hin) as (v & Hv & Hid). exists v. split; [now right|exact Hid].
Qed.

Lemma deleteOne_docs_subset (id : ObjectId) (docs : list User) (v : User) :
  In v (fst (deleteOne_docs id docs)) -> In v docs.
Proof.
  induction docs as [|u rest IH]; simpl; [contradiction|].
  destruct (_id u =? id)%string; simpl; [now right|].
  destruct (deleteOne_docs id rest) as [rest' n]; simpl in *.
  intros [Heq|Hin]; [now left|right; now apply IH].
Qed.

Lemma deleteOne_docs_unique (id : ObjectId) (docs : list User) :
  unique_ids docs -> unique_ids (fst (deleteOne_docs id docs)).
Proof.
  unfold unique_ids. induction docs as [|u rest IH]; simpl; intro Hnd; [constructor|].
  inversion Hnd as [|? ? Hnotin Hnd']; subst.
  destruct (_id u =? id)%string; simpl; [assumption|].
  pose proof (deleteOne_docs_subset id rest) as Hsub.
  destruct (deleteOne_docs id rest) as [rest' n]; simpl in *.
  constructor; [|now apply IH].
  intro Hin. apply Hnotin. apply in_map_iff in Hin.
  destruct Hin as (v & Hv & Hin). apply in_map_iff. exists v. split; auto.
Qed.

Lemma apply_write_identity (wr : Write) (docs : list User) (v' : User) :
  In v' (apply_write wr docs) ->
  exists v, In v docs /\ identity_of v' = identity_of v.
Proof.
  destruct wr as [id sets|id]; simpl.
  - apply updateOne_docs_identity.
  - intro Hin. exists v'. split; [now apply deleteOne_docs_subset in Hin|reflexivity].
Qed.

Lemma apply_write_unique (wr : Write) (docs : list User) :
  unique_ids docs -> unique_ids (apply_write wr docs).
Proof.
  destruct wr as [id sets|id]; simpl.
  - unfold unique_ids. now rewrite updateOne_docs_ids.
  - apply deleteOne_docs_unique.
Qed.

Section Frame.
Context {P : Platform}.

(** X9. No route creates an account, and none changes the id, the
    address, the name, the role or the creation date of one: after any
    sequence of requests every document of the collection has the identity of
    a document that was there at the start, and ids that were unique are
    still unique. *)
Theorem accounts_keep_identity :
  forall cfg reqs w,
    (unique_ids (users w) -> unique_ids (users (run cfg reqs w))) /\
    (forall v', In v' (users (run cfg reqs w)) ->
                exists v, In v (users w) /\ identity_of v' = identity_of v).
Proof.
  intros cfg reqs. induction reqs as [|[amb c] rest IH]; intro w; simpl.
  - split; [auto|]. intros v' Hin. now exists v'.
  - destruct (IH (snd (handle cfg amb c w))) as [IHu IHi].
    destruct (handle_one_write cfg amb c w) as [[Hsu _]|(wr & Hsu & _)];
      rewrite Hsu in *.
    + split; assumption.
    + split.
      * intro Hu. now apply IHu, apply_write_unique.
      * intros v' Hin. destruct (IHi v' Hin) as (v1 & Hv1 & Hid1).
        destruct (apply_write_identity wr _ _ Hv1) as (v & Hv & Hid).
        exists v. split; [assumption|congruence].
Qed.

(** X10. Whether the mailer delivers never shows: with any other mailer,
    every route gives the same response, the same collection, the same writes
    and the same delay. *)
Theorem mailer_does_not_matter :
  forall cfg amb d c w,
    let out := handle cfg amb c w in
    let out' := handle cfg (with_mailer d amb) c w in
    fst out' = fst out /\
    users (snd out') = users (snd out) /\
    writes (snd out') = writes (snd out) /\
    slept (snd out') = slept (snd out).
Proof.
  intros cfg amb d c w. cbv zeta.
  destruct c as [b| |e t b|tok|b|b|tok]; cbn [handle];
    unfold POST_signin, POST_signout, POST_verification, DELETE_account,
      POST_resend_otp, POST_forgot_password, GET_me, GET_me_on, generateOTP, otp_rejected,
      generateJWT, sendMail, updateOne, deleteOne, sleep, issue_sets, verified_sets,
      reset_sets, otp_deadline, with_mailer;
    cbn [now randomBytes4 salt delivers];
    repeat (cbn [fst snd users writes slept];
            match goal with
            | |- context [if ?c then _ else _] => destruct c eqn:?
            | |- context [match ?x with _ => _ end] => destruct x eqn:?
            end);
    cbn [fst snd users writes slept]; auto.
Qed.

End Frame.

(* ------------------------------------------------------------------ *)
(** ** Sessions and mails *)

Section Sessions.
Context {P : Platform}.

(** X11. Sign-in answers 200 exactly when the server has its secret, the
    body is valid, the address finds an account that has a password, the
    password matches and the address is verified.  Then it sets the session
    cookie of that account and sends one update, of lastLogin and updatedAt
    only; in every other case it sets no cookie. *)
Theorem signin_succeeds_iff :
  forall cfg amb reqBody w,
    let out := POST_signin cfg amb reqBody w in
    let granted secret user :=
      exists reqJson address pw hash,
        defined_secret cfg = Some secret /\
        reqBody = Some reqJson /\
        signinSchema reqJson = success (address, pw) /\
        findOne_email address (users w) = Some user /\
        password user = Some hash /\ hash <> "" /\
        bcrypt_compare pw hash = true /\
        emailVerified user = true in
    (status (fst out) = 200 <-> exists secret user, granted secret user) /\
    (status (fst out) <> 200 -> cookies (fst out) = []) /\
    (forall secret user,
        granted secret user ->
        cookies (fst out)
        = [auth_cookie cfg (jwt_sign (session_of user) secret "7d" (now amb))] /\
        writes (snd out)
        = UpdateOne (_id user) [set_lastLogin (now amb); set_updatedAt (now amb)]
          :: writes w /\
        sets_session cfg secret (now amb) user (fst out)).
Proof.
  intros cfg amb reqBody w. cbv zeta.
  assert (Hgranted :
    forall secret user reqJson address pw hash,
      defined_secret cfg = Some secret ->
      reqBody = Some reqJson ->
      signinSchema reqJson = success (address, pw) ->
      findOne_email address (users w) = Some user ->
      password user = Some hash -> hash <> "" ->
      bcrypt_compare pw hash = true ->
      emailVerified user = true ->
      POST_signin cfg amb reqBody w
      = (setAuthCookie cfg
           (NextResponse_json (message_body "Signed in successfully") 200)
           (jwt_sign (session_of user) secret "7d" (now amb)),
         updateOne (_id user) [set_lastLogin (now amb); set_updatedAt (now amb)]
           w)).
  { intros secret user reqJson address pw hash Hsec Hb Hp Hf Hpw Hne Hcmp Hv.
    unfold POST_signin.
    rewrite Hsec, Hb, Hp, (found_not_throws _ _ _ Hf), Hf, Hpw. simpl.
    apply String.eqb_neq in Hne. rewrite Hne. simpl. now rewrite Hcmp, Hv. }
  split; [split|split].
  - (* 200 only when granted *)
    unfold POST_signin.
    destruct (defined_secret cfg) as [secret|] eqn:Hsec; [|discriminate].
    destruct reqBody as [reqJson|]; [|discriminate].
    destruct (signinSchema reqJson) as [[address pw]|] eqn:Hp; [|discriminate].
    destruct (findOne_throws address); [discriminate|].
    destruct (findOne_email address (users w)) as [user|] eqn:Hf; [|discriminate].
    destruct (password user) as [hash|] eqn:Hpw; [|discriminate].
    simpl. destruct (hash =? "")%string eqn:Hne; [discriminate|]. simpl.
    destruct (bcrypt_compare pw hash) eqn:Hcmp; [|discriminate]. simpl.
    destruct (emailVerified user) eqn:Hv; simpl.
    + intros _. exists secret, user, reqJson, address, pw, hash.
      apply String.eqb_neq in Hne. repeat split; auto.
    + destruct (generateOTP amb); discriminate.
  - intros (secret & user & reqJson & address & pw & hash
            & Hsec & Hb & Hp & Hf & Hpw & Hne & Hcmp & Hv).
    now rewrite (Hgranted secret user reqJson address pw hash).
  - unfold POST_signin.
    destruct (defined_secret cfg) as [secret|]; [|reflexivity].
    destruct reqBody as [reqJson|]; [|reflexivity].
    destruct (signinSchema reqJson) as [[address pw]|]; [|reflexivity].
    destruct (findOne_throws address); [reflexivity|].
    destruct (findOne_email address (users w)) as [user|]; [|reflexivity].
    destruct (negb (truthy (password user))); [reflexivity|].
    destruct (negb (bcrypt_compare pw (or_else (password user) "")));
      [reflexivity|].
    destruct (negb (emailVerified user)).
    + destruct (generateOTP amb); reflexivity.
    + simpl. intro H. now elim H.
  - intros secret user (reqJson & address & pw & hash
                        & Hsec & Hb & Hp & Hf & Hpw & Hne & Hcmp & Hv).
    rewrite (Hgranted secret user reqJson address pw hash
               Hsec Hb Hp Hf Hpw Hne Hcmp Hv).
    split; [reflexivity|]. split; [reflexivity|].
    apply sets_session_of_cookies. reflexivity.
Qed.

(** X12. A code is mailed only to the stored address of an account of the
    collection, and it is the code just generated; a code for signup is never
    mailed to an account whose address is verified.  This holds of every mail
    any route adds to the outbox. *)
Theorem codes_go_to_their_account :
  forall cfg amb c w to code type,
    In (OTPEmail to code type) (outbox (snd (handle cfg amb c w))) ->
    In (OTPEmail to code type) (outbox w) \/
    exists user,
      In user (users w) /\
      to = email user /\
      generateOTP amb = Some code /\
      (type = "signup" -> emailVerified user = false).
Proof.
  intros cfg amb c w to code type.
  assert (Hissue :
    forall user newOtp t e,
      findOne_email e (users w) = Some user ->
      generateOTP amb = Some newOtp ->
      (t = "signup" -> emailVerified user = false) ->
      In (OTPEmail to code type) (OTPEmail (email user) newOtp t :: outbox w) ->
      In (OTPEmail to code type) (outbox w) \/
      exists user,
        In user (users w) /\ to = email user /\
        generateOTP amb = Some code /\
        (type = "signup" -> emailVerified user = false)).
  { intros user newOtp t e Hf Hg Hv [Heq|Hin]; [|now left].
    inversion Heq; subst. right. exists user.
    repeat split; auto. now apply findOne_email_In in Hf. }
  destruct c as [b| |e t b|tok|b|b|tok]; simpl.
  - unfold POST_signin, sendMail.
    destruct (defined_secret cfg); [|now left].
    destruct b as [reqJson|]; [|now left].
    destruct (signinSchema reqJson) as [[address pw]|]; [|now left].
    destruct (findOne_throws address); [now left|].
    destruct (findOne_email address (users w)) as [user|] eqn:Hf; [|now left].
    destruct (negb (truthy (password user))); [now left|].
    destruct (negb (bcrypt_compare pw (or_else (password user) "")));
      [now left|].
    destruct (emailVerified user) eqn:Hv; simpl; [now left|].
    destruct (generateOTP amb) as [newOtp|] eqn:Hg; [|now left].
    simpl. apply (Hissue user newOtp "signup" address); auto.
  - now left.
  - unfold POST_verification, sendMail.
    destruct (defined_secret cfg) as [secret|]; [|now left].
    destruct (decodeURIComponent e) as [decoded|]; [|now left].
    destruct b as [reqJson|]; [|now left].
    destruct (findOne_throws (toLowerCase decoded)); [now left|].
    destruct (findOne_email (toLowerCase decoded) (users w)) as [user|];
      [|now left].
    destruct (otpVerificationSchema reqJson) as [submitted|].
    + destruct ((t =? "signup")%string && emailVerified user); [now left|].
      destruct (otp_rejected amb user submitted); [now left|].
      destruct (t =? "signup")%string.
      * simpl.
        destruct (findOne_id (_id user)
                    (updateOne_docs (_id user) (verified_sets amb) (users w)));
          simpl; (intros [H|H]; [discriminate|now left]).
      * destruct (t =? "password-reset")%string; now left.
    + destruct (passwordResetBodySchema reqJson) as [newPassword|]; [|now left].
      destruct (truthy (password user)
                && bcrypt_compare newPassword (or_else (password user) ""));
        [now left|].
      set (sets := reset_sets amb (bcrypt_hash newPassword 10 (salt amb))).
      destruct (negb (emailVerified user)); simpl;
        [destruct (delivers amb _); simpl|];
        destruct (findOne_id (_id user) (updateOne_docs (_id user) sets (users w)));
        simpl; intuition discriminate.
  - unfold DELETE_account.
    destruct (defined_secret cfg) as [secret|]; [|now left].
    destruct (negb (truthy tok)); [now left|].
    destruct (jwt_verify (or_else tok "") secret (now amb)) as [session|];
      [|now left].
    destruct (negb (truthy (userId session))); [now left|].
    destruct (ObjectId_new (or_else (userId session) "")) as [oid|]; [|now left].
    unfold deleteOne. destruct (deleteOne_docs oid (users w)) as [docs n].
    destruct (n =? 0); now left.
  - unfold POST_resend_otp, sendMail.
    destruct b as [reqJson|]; [|now left].
    destruct (resendOtpSchema reqJson) as [[address t]|]; [|now left].
    destruct (findOne_throws address); [now left|].
    destruct (findOne_email address (users w)) as [user|] eqn:Hf; [|now left].
    destruct ((t =? "signup")%string && emailVerified user) eqn:Hguard;
      [now left|].
    destruct (generateOTP amb) as [newOtp|] eqn:Hg; [|now left].
    simpl. apply (Hissue user newOtp t address); auto.
    intros ->. simpl in Hguard. exact Hguard.
  - unfold POST_forgot_password, sendMail.
    destruct b as [reqJson|]; [|now left].
    destruct (forgotPasswordSchema reqJson) as [address|]; [|now left].
    destruct (findOne_throws address); [now left|].
    destruct (findOne_email address (users w)) as [user|] eqn:Hf; [|now left].
    destruct (generateOTP amb) as [newOtp|] eqn:Hg; [|now left].
    simpl. apply (Hissue user newOtp "password-reset" address); auto.
    discriminate.
  - unfold GET_me, GET_me_on.
    destruct (defined_secret cfg) as [secret|]; [|now left].
    destruct (negb (truthy tok)); [now left|].
    destruct (jwt_verify (or_else tok "") secret (now amb)) as [session|];
      [|now left].
    destruct (negb (truthy (userId session)) || negb (truthy (s_email session)));
      [now left|].
    destruct (ObjectId_new (or_else (userId session) "")) as [oid|]; [|now left].
    destruct (findOne_id oid (users w)); now left.
Qed.

End Sessions.

(* ------------------------------------------------------------------ *)
(** ** The session probes: /me and /profile *)

Lemma findOne_id_redact (id : ObjectId) (docs : list User) :
  findOne_id id (map redact docs) = option_map redact (findOne_id id docs).
Proof.
  unfold findOne_id. induction docs as [|u rest IH]; simpl; [reflexivity|].
  destruct (_id u =? id)%string; [reflexivity|exact IH].
Qed.

Lemma redact_fields (u v : User) :
  redact u = redact v ->
  _id u = _id v /\ email u = email v /\ name u = name v /\ role u = role v /\
  emailVerified u = emailVerified v /\ createdAt u = createdAt v /\
  lastLogin u = lastLogin v.
Proof.
  intro H.
  pose proof (f_equal _id H). pose proof (f_equal email H).
  pose proof (f_equal name H). pose proof (f_equal role H).
  pose proof (f_equal emailVerified H). pose proof (f_equal createdAt H).
  pose proof (f_equal lastLogin H). simpl in *. auto 10.
Qed.

Section Probes.
Context {P : Platform}.

(** X13. The probes disclose no secret: the answers of /me and of /profile
    are the same on two collections that differ only in password hashes, otp
    and otpExpiry; and neither probe changes anything. *)
Theorem probes_disclose_no_secret :
  forall toISOString cfg amb tok w w',
    map redact (users w) = map redact (users w') ->
    fst (GET_me cfg amb tok w) = fst (GET_me cfg amb tok w') /\
    fst (GET_profile toISOString cfg amb tok w)
    = fst (GET_profile toISOString cfg amb tok w') /\
    snd (GET_me cfg amb tok w) = w /\
    snd (GET_profile toISOString cfg amb tok w) = w.
Proof.
  intros toISOString cfg amb tok w w' Hsame.
  assert (Hfind : forall id,
             option_map redact (findOne_id id (users w))
             = option_map redact (findOne_id id (users w'))).
  { intro id. now rewrite <- !findOne_id_redact, Hsame. }
  unfold GET_me, GET_me_on, GET_profile.
  destruct (defined_secret cfg) as [secret|]; [|auto].
  destruct (negb (truthy tok)); [auto|].
  destruct (jwt_verify (or_else tok "") secret (now amb)) as [session|]; [|auto].
  destruct (negb (truthy (userId session))); simpl; [auto|].
  destruct (ObjectId_new (or_else (userId session) "")) as [oid|].
  2:{ destruct (negb (truthy (s_email session))); auto. }
  specialize (Hfind oid).
  destruct (findOne_id oid (users w)) as [u|],
           (findOne_id oid (users w')) as [v|]; simpl in Hfind;
    try discriminate.
  - assert (Hred : redact u = redact v) by congruence.
    destruct (redact_fields u v Hred) as (Hi & He & Hn & Hr & Hv & Hc & Hl).
    rewrite Hi, He, Hn, Hr, Hv, Hc, Hl.
    destruct (negb (truthy (s_email session))); auto.
  - destruct (negb (truthy (s_email session))); auto.
Qed.

(** X14. /me never issues a session, whether or not the store can be
    reached.  With the secret configured: a 401 carries exactly one cookie,
    the cleared one (named [token], empty, expired at the epoch, with the
    attributes of the session cookie); a 200 sets no cookie; a 500 sets no
    cookie when the store is connected (the id of the token is no ObjectId)
    and the cleared cookie when the connection is rejected; whatever cookie
    is set is the cleared one; the collection is not touched.  The answer is
    401 exactly when a token is presented and it does not verify, or lacks
    an id or an address, or the store is connected and holds no account of
    that id. *)
Theorem me_clears_on_401 :
  forall connected cfg amb tok w secret,
    defined_secret cfg = Some secret ->
    let out := GET_me_on connected cfg amb tok w in
    let cleared c :=
      c_name c = "token" /\ c_value c = "" /\ expires c = Some 0 /\
      maxAge c = None /\ path c = "/" /\ httpOnly c = true /\
      secure c = production cfg /\ sameSite c = "lax" in
    (status (fst out) = 401 ->
     exists c, cookies (fst out) = [c] /\ cleared c) /\
    (status (fst out) = 200 -> cookies (fst out) = []) /\
    (status (fst out) = 500 ->
     if connected then cookies (fst out) = []
     else exists c, cookies (fst out) = [c] /\ cleared c) /\
    (forall c, In c (cookies (fst out)) -> cleared c) /\
    snd out = w /\
    (status (fst out) = 401 <->
     truthy tok = true /\
     match jwt_verify (or_else tok "") secret (now amb) with
     | None => True
     | Some session =>
         truthy (userId session) = false \/ truthy (s_email session) = false \/
         (connected = true /\
          exists oid,
            ObjectId_new (or_else (userId session) "") = Some oid /\
            findOne_id oid (users w) = None)
     end).
Proof.
  intros connected cfg amb tok w secret Hsec. cbv zeta.
  assert (Hcleared :
            c_name (cleared_cookie cfg) = "token" /\
            c_value (cleared_cookie cfg) = "" /\
            expires (cleared_cookie cfg) = Some 0 /\
            maxAge (cleared_cookie cfg) = None /\
            path (cleared_cookie cfg) = "/" /\
            httpOnly (cleared_cookie cfg) = true /\
            secure (cleared_cookie cfg) = production cfg /\
            sameSite (cleared_cookie cfg) = "lax")
    by (repeat split; reflexivity).
  assert (Hone : exists c, [cleared_cookie cfg] = [c] /\
                   c_name c = "token" /\ c_value c = "" /\
                   expires c = Some 0 /\ maxAge c = None /\ path c = "/" /\
                   httpOnly c = true /\ secure c = production cfg /\
                   sameSite c = "lax")
    by (exists (cleared_cookie cfg); split; [reflexivity | exact Hcleared]).
  assert (Hall : forall c, In c [cleared_cookie cfg] ->
                   c_name c = "token" /\ c_value c = "" /\
                   expires c = Some 0 /\ maxAge c = None /\ path c = "/" /\
                   httpOnly c = true /\ secure c = production cfg /\
                   sameSite c = "lax")
    by (intros c [<-|[]]; exact Hcleared).
  unfold GET_me_on. rewrite Hsec.
  destruct (truthy tok); simpl.
  2:{ split; [discriminate|]. split; [reflexivity|].
      split; [discriminate|]. split; [intros c []|].
      split; [reflexivity|]. split; [discriminate|].
      intros [H _]. discriminate. }
  destruct (jwt_verify (or_else tok "") secret (now amb)) as [session|].
  2:{ simpl. split; [intros _; exact Hone|]. split; [discriminate|].
      split; [discriminate|]. split; [exact Hall|].
      split; [reflexivity|]. split; auto. }
  destruct (truthy (userId session)); simpl.
  2:{ split; [intros _; exact Hone|]. split; [discriminate|].
      split; [discriminate|]. split; [exact Hall|].
      split; [reflexivity|]. split; auto. }
  destruct (truthy (s_email session)); simpl.
  2:{ split; [intros _; exact Hone|]. split; [discriminate|].
      split; [discriminate|]. split; [exact Hall|].
      split; [reflexivity|]. split; auto. }
  destruct connected.
  2:{ simpl. split; [discriminate|]. split; [discriminate|].
      split; [intros _; exact Hone|]. split; [exact Hall|].
      split; [reflexivity|]. split; [discriminate|].
      intros [_ [H|[H|[H _]]]]; discriminate. }
  destruct (ObjectId_new (or_else (userId session) "")) as [oid|].
  2:{ simpl. split; [discriminate|]. split; [discriminate|].
      split; [reflexivity|]. split; [intros c []|].
      split; [reflexivity|]. split; [discriminate|].
      intros [_ [H|[H|[_ (o & H & _)]]]]; discriminate. }
  destruct (findOne_id oid (users w)) as [u|] eqn:Hf; simpl.
  - split; [discriminate|]. split; [reflexivity|].
    split; [discriminate|]. split; [intros c []|].
    split; [reflexivity|]. split; [discriminate|].
    intros [_ [H|[H|[_ (o & Ho & Hn)]]]]; try discriminate.
    inversion Ho; subst. congruence.
  - split; [intros _; exact Hone|]. split; [discriminate|].
    split; [discriminate|]. split; [exact Hall|].
    split; [reflexivity|]. split; [|reflexivity].
    intros _. split; [reflexivity|]. right. right.
    split; [reflexivity|]. now exists oid.
Qed.

(** X15. A deleted account is gone for its own token.  After a deletion
    has answered 200, the same token (still verifying to the same session)
    finds no account: deleting again answers 404, /me answers 401 and /profile
    answers 404, each clearing the cookie. *)
Theorem deleted_account_is_gone :
  forall toISOString cfg amb1 amb2 token w secret session,
    defined_secret cfg = Some secret ->
    token <> "" ->
    unique_ids (users w) ->
    jwt_verify token secret (now amb1) = Some session ->
    jwt_verify token secret (now amb2) = Some session ->
    truthy (s_email session) = true ->
    let deleted := DELETE_account cfg amb1 (Some token) w in
    status (fst deleted) = 200 ->
    let again := fst (DELETE_account cfg amb2 (Some token) (snd deleted)) in
    let me := fst (GET_me cfg amb2 (Some token) (snd deleted)) in
    let profile :=
      fst (GET_profile toISOString cfg amb2 (Some token) (snd deleted)) in
    status again = 404 /\ cookies again = [cleared_cookie cfg] /\
    status me = 401 /\ cookies me = [cleared_cookie cfg] /\
    status profile = 404 /\ cookies profile = [cleared_cookie cfg].
Proof.
  intros toISOString cfg amb1 amb2 token w secret session
    Hsec Htok Hu Hv1 Hv2 Hmail.
  apply String.eqb_neq in Htok.
  assert (Hfirst :
    status (fst (DELETE_account cfg amb1 (Some token) w)) = 200 ->
    truthy (userId session) = true /\
    exists oid,
      ObjectId_new (or_else (userId session) "") = Some oid /\
      findOne_id oid (users (snd (DELETE_account cfg amb1 (Some token) w)))
      = None /\
      deleteOne_docs oid (users (snd (DELETE_account cfg amb1 (Some token) w)))
      = (users (snd (DELETE_account cfg amb1 (Some token) w)), 0)).
  { unfold DELETE_account. rewrite Hsec. simpl. rewrite Htok. simpl.
    rewrite Hv1.
    destruct (truthy (userId session)) eqn:Huid; simpl; [|discriminate].
    destruct (ObjectId_new (or_else (userId session) "")) as [oid|] eqn:Hoid;
      [|discriminate].
    unfold deleteOne.
    pose proof (deleteOne_docs_count oid (users w)) as Hcount.
    pose proof (deleteOne_docs_one oid (users w) Hu) as Hone.
    destruct (deleteOne_docs oid (users w)) as [docs n]; simpl in *.
    destruct Hcount as [-> | ->]; simpl; [discriminate|]. intros _.
    destruct (Hone eq_refl) as [_ Hiff].
    assert (Hgone : findOne_id oid docs = None).
    { destruct (findOne_id oid docs) as [v|] eqn:Hf; [|reflexivity].
      unfold findOne_id in Hf. apply find_some in Hf. destruct Hf as [Hin Heq].
      apply Hiff in Hin. apply String.eqb_eq in Heq. now elim (proj2 Hin). }
    split; [reflexivity|]. exists oid. split; [reflexivity|].
    split; [exact Hgone|].
    clear -Hgone. unfold findOne_id in Hgone.
    induction docs as [|u rest IH]; simpl in *; [reflexivity|].
    destruct (_id u =? oid)%string; [discriminate|]. now rewrite IH. }
  cbv zeta. intro H200.
  destruct (Hfirst H200) as (Huid & oid & Hoid & Hgone & Hzero).
  remember (DELETE_account cfg amb1 (Some token) w) as deleted eqn:Ed.
  unfold DELETE_account, GET_me, GET_me_on, GET_profile, deleteOne.
  rewrite Hsec. simpl truthy. rewrite Htok. simpl negb. simpl or_else.
  rewrite Htok, Hv2, Huid, Hmail. simpl negb. simpl orb.
  rewrite Hoid, Hzero, Hgone. simpl. auto 10.
Qed.

End Probes.

(* ------------------------------------------------------------------ *)
(** ** The page middleware *)

Lemma startsWith_split (s prefix : string) :
  startsWith s prefix = true -> exists rest, s = (prefix ++ rest)%string.
Proof.
  revert s. induction prefix as [|a prefix IH]; intros s H; simpl in *.
  - now exists s.
  - destruct s as [|b s]; [discriminate|].
    apply andb_true_iff in H. destruct H as [Hab Hs].
    apply Ascii.eqb_eq in Hab. subst b.
    destruct (IH s Hs) as (rest & ->). now exists rest.
Qed.

(** X16. What the middleware decides.  It redirects to /signin, with the
    requested path as [from], exactly when no token is presented and the path
    begins with a protected route; it redirects to the home page exactly when
    a token is presented and the path begins with /verification/ or with one
    of the sign-in, sign-up and forgot-password routes; in every other case
    the request goes through.  In particular no path under /api/, /_next/,
    /favicon.ico or /public/, nor the home page, is ever redirected. *)
Theorem middleware_decides :
  forall token pathname,
    (middleware token pathname = Redirect "/signin" [("from", pathname)] <->
     truthy token = false /\
     existsb (fun route => startsWith pathname route) protectedRoutes = true) /\
    (middleware token pathname = Redirect "/" [] <->
     truthy token = true /\
     (startsWith pathname "/verification/" = true \/
      existsb (fun route => startsWith pathname route) authRedirectRoutes = true))
    /\
    (middleware token pathname = Next \/
     middleware token pathname = Redirect "/signin" [("from", pathname)] \/
     middleware token pathname = Redirect "/" []).
Proof.
  intros token pathname. unfold middleware.
  destruct (startsWith pathname "/api/") eqn:E1.
  { apply startsWith_split in E1. destruct E1 as (r & ->). simpl.
    repeat split; try discriminate; auto; intuition discriminate. }
  destruct (startsWith pathname "/_next/") eqn:E2.
  { apply startsWith_split in E2. destruct E2 as (r & ->). simpl.
    repeat split; try discriminate; auto; intuition discriminate. }
  destruct (startsWith pathname "/favicon.ico") eqn:E3.
  { apply startsWith_split in E3. destruct E3 as (r & ->). simpl.
    repeat split; try discriminate; auto; intuition discriminate. }
  destruct (startsWith pathname "/public/") eqn:E4.
  { apply startsWith_split in E4. destruct E4 as (r & ->). simpl.
    repeat split; try discriminate; auto; intuition discriminate. }
  destruct (String.eqb_spec pathname "/") as [->|E5].
  { simpl. repeat split; try discriminate; auto; intuition discriminate. }
  cbn [orb].
  destruct (startsWith pathname "/verification/") eqn:E6.
  { apply startsWith_split in E6. destruct E6 as (r & ->).
    destruct (truthy token); simpl;
      repeat split; try discriminate; auto; intuition discriminate. }
  destruct (truthy token);
    destruct (existsb (fun route => startsWith pathname route) authRedirectRoutes);
    destruct (existsb (fun route => startsWith pathname route) protectedRoutes);
    simpl; repeat split; try discriminate; auto; intuition discriminate.
Qed.

(* ------------------------------------------------------------------ *)
(** ** The password step of the verification route *)

Section PasswordStep.
Context {P : Platform}.

(** X17. The password step does not look at the type in the URL: a
    request whose body is not accepted as an OTP is answered the same, and
    has the same effects, under any two types. *)
Theorem password_step_ignores_type :
  forall cfg amb rawEmail type type' reqJson w m,
    otpVerificationSchema reqJson = failure m ->
    POST_verification cfg amb rawEmail type (Some reqJson) w
    = POST_verification cfg amb rawEmail type' (Some reqJson) w.
Proof.
  intros cfg amb rawEmail type type' reqJson w m Hno.
  unfold POST_verification.
  destruct (defined_secret cfg) as [secret|]; [|reflexivity].
  destruct (decodeURIComponent rawEmail) as [decoded|]; [|reflexivity].
  destruct (findOne_throws (toLowerCase decoded)); [reflexivity|].
  destruct (findOne_email (toLowerCase decoded) (users w)) as [user|];
    [|reflexivity].
  now rewrite Hno.
Qed.

End PasswordStep.

(* ------------------------------------------------------------------ *)
(** ** Verified accounts *)

Section Verified.
Context {P : Platform}.

Ltac same := left; split; reflexivity.
Ltac wrote := right; eexists; split; [|split; [reflexivity|]];
              [constructor|reflexivity].

(** The write of a request, when there is one, is one of five. *)
Lemma handle_route_write (cfg : Config) (amb : Ambient) (c : Call) (w : World) :
  (users (snd (handle cfg amb c w)) = users w /\
   writes (snd (handle cfg amb c w)) = writes w) \/
  exists wr,
    route_write wr /\
    writes (snd (handle cfg amb c w)) = wr :: writes w /\
    users (snd (handle cfg amb c w)) = apply_write wr (users w).
Proof.
  destruct c as [b| |e t b|tok|b|b|tok]; simpl.
  - unfold POST_signin, sendMail.
    destruct (defined_secret cfg); [|same].
    destruct b as [reqJson|]; [|same].
    destruct (signinSchema reqJson) as [[address pw]|]; [|same].
    destruct (findOne_throws address); [same|].
    destruct (findOne_email address (users w)) as [user|]; [|same].
    destruct (negb (truthy (password user))); [same|].
    destruct (negb (bcrypt_compare pw (or_else (password user) ""))); [same|].
    destruct (negb (emailVerified user)); [|wrote].
    destruct (generateOTP amb) as [newOtp|]; [wrote|same].
  - same.
  - unfold POST_verification, sendMail.
    destruct (defined_secret cfg) as [secret|]; [|same].
    destruct (decodeURIComponent e) as [decoded|]; [|same].
    destruct b as [reqJson|]; [|same].
    destruct (findOne_throws (toLowerCase decoded)); [same|].
    destruct (findOne_email (toLowerCase decoded) (users w)) as [user|]; [|same].
    destruct (otpVerificationSchema reqJson) as [submitted|].
    + destruct ((t =? "signup")%string && emailVerified user); [same|].
      destruct (otp_rejected amb user submitted); [same|].
      destruct (t =? "signup")%string.
      * simpl.
        destruct (findOne_id (_id user)
                    (updateOne_docs (_id user) (verified_sets amb) (users w)));
          wrote.
      * destruct (t =? "password-reset")%string; same.
    + destruct (passwordResetBodySchema reqJson) as [newPassword|]; [|same].
      destruct (truthy (password user)
                && bcrypt_compare newPassword (or_else (password user) ""));
        [same|].
      set (sets := reset_sets amb (bcrypt_hash newPassword 10 (salt amb))).
      destruct (negb (emailVerified user)); simpl;
        [destruct (delivers amb _); simpl|];
        destruct (findOne_id (_id user) (updateOne_docs (_id user) sets (users w)));
        wrote.
  - unfold DELETE_account.
    destruct (defined_secret cfg) as [secret|]; [|same].
    destruct (negb (truthy tok)); [same|].
    destruct (jwt_verify (or_else tok "") secret (now amb)) as [session|];
      [|same].
    destruct (negb (truthy (userId session))); [same|].
    destruct (ObjectId_new (or_else (userId session) "")) as [oid|]; [|same].
    unfold deleteOne.
    destruct (deleteOne_docs oid (users w)) as [docs n] eqn:E.
    right. exists (DeleteOne oid). simpl. rewrite E.
    destruct (n =? 0); (split; [constructor|split; reflexivity]).
  - unfold POST_resend_otp, sendMail.
    destruct b as [reqJson|]; [|same].
    destruct (resendOtpSchema reqJson) as [[address t]|]; [|same].
    destruct (findOne_throws address); [same|].
    destruct (findOne_email address (users w)) as [user|]; [|same].
    destruct ((t =? "signup")%string && emailVerified user); [same|].
    destruct (generateOTP amb) as [newOtp|]; [wrote|same].
  - unfold POST_forgot_password, sendMail.
    destruct b as [reqJson|]; [|same].
    destruct (forgotPasswordSchema reqJson) as [address|]; [|same].
    destruct (findOne_throws address); [same|].
    destruct (findOne_email address (users w)) as [user|]; [|same].
    destruct (generateOTP amb) as [newOtp|]; [wrote|same].
  - unfold GET_me, GET_me_on.
    destruct (defined_secret cfg) as [secret|]; [|same].
    destruct (negb (truthy tok)); [same|].
    destruct (jwt_verify (or_else tok "") secret (now amb)) as [session|];
      [|same].
    destruct (negb (truthy (userId session)) || negb (truthy (s_email session)));
      [same|].
    destruct (ObjectId_new (or_else (userId session) "")) as [oid|]; [|same].
    destruct (findOne_id oid (users w)); same.
Qed.

(** A write of a route keeps a verified document verified, and changes a
    password hash only in the password step. *)
Lemma route_write_keeps_verified (wr : Write) (docs : list User) (v' : User) :
  route_write wr ->
  In v' (apply_write wr docs) ->
  exists v, In v docs /\ identity_of v' = identity_of v /\
            (emailVerified v = true -> emailVerified v' = true).
Proof.
  intros Hwr Hin.
  destruct wr as [id sets|id].
  - simpl in Hin.
    assert (Hsets : forall u, emailVerified u = true ->
                              emailVerified (apply_sets u sets) = true)
      by (inversion Hwr; subst; intros u Hu; simpl; auto).
    clear Hwr. induction docs as [|u rest IH]; simpl in Hin; [contradiction|].
    destruct (_id u =? id)%string; simpl in Hin.
    + destruct Hin as [Heq|Hin].
      * exists u. split; [now left|]. rewrite <- Heq.
        split; [apply apply_sets_identity|apply Hsets].
      * exists v'. split; [now right|]. auto.
    + destruct Hin as [Heq|Hin].
      * exists v'. split; [now left|]. auto.
      * destruct (IH Hin) as (v & Hv & Hid). exists v. split; [now right|exact Hid].
  - simpl in Hin. exists v'. split; [now apply deleteOne_docs_subset in Hin|].
    auto.
Qed.

(** X18. Verification is never taken back: after any sequence of
    requests, every account of the collection comes from an account that was
    there at the start, with the same identity, and is verified if that one
    was. *)
Theorem verified_stays_verified :
  forall cfg reqs w v',
    In v' (users (run cfg reqs w)) ->
    exists v,
      In v (users w) /\ identity_of v' = identity_of v /\
      (emailVerified v = true -> emailVerified v' = true).
Proof.
  intros cfg reqs. induction reqs as [|[amb c] rest IH]; intros w v' Hin;
    simpl in Hin.
  - exists v'. auto.
  - destruct (IH _ _ Hin) as (v1 & Hv1 & Hid1 & Hver1).
    destruct (handle_route_write cfg amb c w) as [[Hsu _]|(wr & Hwr & _ & Hsu)];
      rewrite Hsu in Hv1.
    + exists v1. auto.
    + destruct (route_write_keeps_verified wr _ _ Hwr Hv1) as (v & Hv & Hid & Hver).
      exists v. split; [assumption|]. split; [congruence|auto].
Qed.

(** X19. A session is issued only to a verified account of the
    collection.  Whatever the route, every cookie a response sets is either
    the cleared cookie or the session cookie of an account that is in the
    collection after the request, with its address verified. *)
Theorem sessions_only_for_verified_accounts :
  forall cfg amb c w cookie,
    unique_ids (users w) ->
    In cookie (cookies (fst (handle cfg amb c w))) ->
    cookie = cleared_cookie cfg \/
    exists secret account,
      defined_secret cfg = Some secret /\
      In account (users (snd (handle cfg amb c w))) /\
      emailVerified account = true /\
      cookie
      = auth_cookie cfg (jwt_sign (session_of account) secret "7d" (now amb)) /\
      session_cookie_of cfg secret (now amb) account cookie.
Proof.
  intros cfg amb c w cookie Hu.
  assert (Hafter :
    forall e sets user,
      findOne_email e (users w) = Some user ->
      In (apply_sets user sets) (updateOne_docs (_id user) sets (users w)) /\
      findOne_id (_id user) (updateOne_docs (_id user) sets (users w))
      = Some (apply_sets user sets)).
  { intros e sets user Hf.
    destruct (updated_lookup e sets _ _ Hu Hf) as (_ & _ & Hid).
    split; [|exact Hid]. unfold findOne_id in Hid. now apply find_some in Hid. }
  destruct c as [b| |e t b|tok|b|b|tok]; simpl.
  - unfold POST_signin, sendMail.
    destruct (defined_secret cfg) as [secret|]; [|contradiction].
    destruct b as [reqJson|]; [|contradiction].
    destruct (signinSchema reqJson) as [[address pw]|]; [|contradiction].
    destruct (findOne_throws address); [contradiction|].
    destruct (findOne_email address (users w)) as [user|] eqn:Hf; [|contradiction].
    destruct (negb (truthy (password user))); [contradiction|].
    destruct (negb (bcrypt_compare pw (or_else (password user) "")));
      [contradiction|].
    destruct (emailVerified user) eqn:Hv; simpl.
    + intros [<-|[]]. right.
      exists secret,
        (apply_sets user [set_lastLogin (now amb); set_updatedAt (now amb)]).
      split; [reflexivity|]. split; [now apply (Hafter address)|].
      split; [exact Hv|]. split; [reflexivity|].
      apply (session_cookie_auth cfg secret (now amb)
               (apply_sets user
                  [set_lastLogin (now amb); set_updatedAt (now amb)])).
    + destruct (generateOTP amb); contradiction.
  - intros [<-|[]]. now left.
  - unfold POST_verification, sendMail.
    destruct (defined_secret cfg) as [secret|]; [|contradiction].
    destruct (decodeURIComponent e) as [decoded|]; [|contradiction].
    destruct b as [reqJson|]; [|contradiction].
    destruct (findOne_throws (toLowerCase decoded)); [contradiction|].
    destruct (findOne_email (toLowerCase decoded) (users w)) as [user|] eqn:Hf;
      [|contradiction].
    destruct (otpVerificationSchema reqJson) as [submitted|].
    + destruct (t =? "signup")%string; simpl.
      * destruct (emailVerified user) eqn:Hv.
        -- simpl. intros [<-|[]]. right. exists secret, user.
           split; [reflexivity|]. split; [now apply findOne_email_In in Hf|].
           split; [exact Hv|]. split; [reflexivity|].
           apply session_cookie_auth.
        -- destruct (otp_rejected amb user submitted); [contradiction|].
           simpl. destruct (Hafter _ (verified_sets amb) _ Hf) as [Hin Hid].
           rewrite Hid. simpl. intros [<-|[]]. right.
           exists secret, (apply_sets user (verified_sets amb)).
           split; [reflexivity|]. split; [exact Hin|].
           split; [reflexivity|]. split; [reflexivity|].
           apply session_cookie_auth.
      * destruct (otp_rejected amb user submitted); [contradiction|].
        destruct (t =? "password-reset")%string; contradiction.
    + destruct (passwordResetBodySchema reqJson) as [newPassword|];
        [|contradiction].
      destruct (truthy (password user)
                && bcrypt_compare newPassword (or_else (password user) ""));
        [contradiction|].
      destruct (Hafter _ (reset_sets amb (bcrypt_hash newPassword 10 (salt amb)))
                  _ Hf) as [Hin Hid].
      destruct (negb (emailVerified user)); simpl;
        [destruct (delivers amb _); simpl|];
        rewrite Hid; simpl; intros [<-|[]]; right;
        exists secret,
          (apply_sets user (reset_sets amb (bcrypt_hash newPassword 10 (salt amb))));
        (split; [reflexivity|]; split; [exact Hin|];
         split; [reflexivity|]; split; [reflexivity|];
         apply session_cookie_auth).
  - unfold DELETE_account.
    destruct (defined_secret cfg) as [secret|]; [|contradiction].
    destruct (negb (truthy tok)); [contradiction|].
    destruct (jwt_verify (or_else tok "") secret (now amb)) as [session|].
    2:{ simpl. intros [<-|[]]. now left. }
    destruct (negb (truthy (userId session))).
    { simpl. intros [<-|[]]. now left. }
    destruct (ObjectId_new (or_else (userId session) "")) as [oid|];
      [|contradiction].
    unfold deleteOne. destruct (deleteOne_docs oid (users w)) as [docs n].
    destruct (n =? 0); simpl; intros [<-|[]]; now left.
  - unfold POST_resend_otp, sendMail.
    destruct b as [reqJson|]; [|contradiction].
    destruct (resendOtpSchema reqJson) as [[address t]|]; [|contradiction].
    destruct (findOne_throws address); [contradiction|].
    destruct (findOne_email address (users w)) as [user|]; [|contradiction].
    destruct ((t =? "signup")%string && emailVerified user); [contradiction|].
    destruct (generateOTP amb) as [newOtp|]; contradiction.
  - unfold POST_forgot_password, sendMail.
    destruct b as [reqJson|]; [|contradiction].
    destruct (forgotPasswordSchema reqJson) as [address|]; [|contradiction].
    destruct (findOne_throws address); [contradiction|].
    destruct (findOne_email address (users w)) as [user|]; [|contradiction].
    destruct (generateOTP amb) as [newOtp|]; contradiction.
  - unfold GET_me, GET_me_on.
    destruct (defined_secret cfg) as [secret|]; [|contradiction].
    destruct (negb (truthy tok)); [contradiction|].
    destruct (jwt_verify (or_else tok "") secret (now amb)) as [session|].
    2:{ simpl. intros [<-|[]]. now left. }
    destruct (negb (truthy (userId session)) || negb (truthy (s_email session))).
    { simpl. intros [<-|[]]. now left. }
    destruct (ObjectId_new (or_else (userId session) "")) as [oid|];
      [|contradiction].
    destruct (findOne_id oid (users w)); [contradiction|].
    simpl. intros [<-|[]]. now left.
Qed.

End Verified.

(* ------------------------------------------------------------------ *)
(** ** Addresses the database rejects as a pattern *)

Section RejectedPattern.
Context {P : Platform}.

(** X20. The four routes that look an account up by address build the
    pattern from the address as it is.  When the database does not accept
    that pattern, the lookup throws and each route answers 500 with its
    generic message: no cookie is set, nothing is written, no mail is sent
    and the resend route has not waited, whatever the collection holds. *)
Theorem rejected_pattern_answers_500 :
  forall cfg amb w address,
    findOne_throws address = true ->
    (forall reqJson pw secret,
        defined_secret cfg = Some secret ->
        signinSchema reqJson = success (address, pw) ->
        POST_signin cfg amb (Some reqJson) w
        = (NextResponse_json (error_body "Internal server error.") 500, w)) /\
    (forall rawEmail type reqJson secret decoded,
        defined_secret cfg = Some secret ->
        decodeURIComponent rawEmail = Some decoded ->
        toLowerCase decoded = address ->
        POST_verification cfg amb rawEmail type (Some reqJson) w
        = (NextResponse_json (error_body "Internal server error.") 500, w)) /\
    (forall reqJson type,
        resendOtpSchema reqJson = success (address, type) ->
        POST_resend_otp amb (Some reqJson) w
        = (NextResponse_json (error_body "Internal server error.") 500, w)) /\
    (forall reqJson,
        forgotPasswordSchema reqJson = success address ->
        POST_forgot_password amb (Some reqJson) w
        = (NextResponse_json
             (error_body "Internal server error. Please try again later.") 500,
           w)).
Proof.
  intros cfg amb w address Hthrows. repeat split.
  - intros reqJson pw secret Hsec Hp.
    unfold POST_signin. now rewrite Hsec, Hp, Hthrows.
  - intros rawEmail type reqJson secret decoded Hsec Hdec Hlow.
    unfold POST_verification. now rewrite Hsec, Hdec, Hlow, Hthrows.
  - intros reqJson type Hp.
    unfold POST_resend_otp. now rewrite Hp, Hthrows.
  - intros reqJson Hp.
    unfold POST_forgot_password. now rewrite Hp, Hthrows.
Qed.

End RejectedPattern.

(* ------------------------------------------------------------------ *)
(** ** Further statements on the sample deployment *)

Lemma generateOTP_six_digits_witness :
  exists code d,
    generateOTP sample_ambient = Some code /\
    String.length code = 6%nat /\
    all_digits code = true /\
    NilEmpty.uint_of_string code = Some d /\
    Z.of_N (N.of_uint d)
    = parseInt_hex4 (Byte.x00, Byte.x01, Byte.xe2, Byte.x40) mod 1000000.
Proof.
  exact (generateOTP_six_digits sample_ambient
           (Byte.x00, Byte.x01, Byte.xe2, Byte.x40) eq_refl).
Defined.

(** Bob forgets his password and confirms the code he is mailed. *)
Lemma forgot_password_then_verify_witness :
  fst (POST_verification (P := sample_platform) sample_config sample_ambient_later
         "bob@example.com" "password-reset" (Some (otp_body "123456"))
         (snd (POST_forgot_password (P := sample_platform) sample_ambient
                 (Some (email_body "bob@example.com")) sample_world)))
  = proceed_response.
Proof.
  destruct (forgot_password_then_verify (P := sample_platform)
              sample_config sample_ambient sample_ambient_later
              "bob@example.com" "bob@example.com" (email_body "bob@example.com")
              sample_world "s3cret" bob (Byte.x00, Byte.x01, Byte.xe2, Byte.x40)
              (sample_reaches bob (or_intror (or_introl eq_refl)))
              sample_unique_ids eq_refl eq_refl eq_refl)
    as (code & Hgen & _ & _ & Hok & _).
  vm_compute in Hgen. injection Hgen as <-.
  apply Hok. simpl. lia.
Defined.

(** Alice signs in, verifies her address with the code, signs in again. *)
Lemma signin_verify_signin_witness :
  status
    (fst (POST_signin (P := sample_platform) sample_config sample_ambient_later
            (Some (signin_body "alice@example.com" "wonderland"))
            (snd (POST_verification (P := sample_platform) sample_config
                    sample_ambient_later "alice@example.com" "signup"
                    (Some (otp_body "123456"))
                    (snd (POST_signin (P := sample_platform) sample_config
                            sample_ambient
                            (Some (signin_body "alice@example.com" "wonderland"))
                            sample_world))))))
  = 200.
Proof.
  destruct (signin_verify_signin (P := sample_platform)
              sample_config sample_ambient sample_ambient_later
              sample_ambient_later "alice@example.com"
              (signin_body "alice@example.com" "wonderland") sample_world
              "s3cret" "alice@example.com" "wonderland" alice "bcrypt:wonderland"
              (Byte.x00, Byte.x01, Byte.xe2, Byte.x40)
              (sample_reaches alice (or_introl eq_refl))
              sample_unique_ids eq_refl eq_refl eq_refl
              ltac:(discriminate) eq_refl eq_refl eq_refl
              ltac:(simpl; lia))
    as (code & Hgen & _ & _ & Hok & _).
  vm_compute in Hgen. injection Hgen as <-. exact Hok.
Defined.

(** Alice verifies her address; her code then opens no password reset. *)
Lemma consumed_code_is_refused_witness :
  fst (POST_verification (P := sample_platform) sample_config sample_ambient
         "alice@example.com" "password-reset" (Some (otp_body "123456"))
         (snd (POST_verification (P := sample_platform) sample_config
                 sample_ambient "alice@example.com" "signup"
                 (Some (otp_body "123456")) sample_world)))
  = invalid_otp_response.
Proof.
  apply (consumed_code_is_refused (P := sample_platform)
           sample_config sample_ambient sample_ambient "alice@example.com"
           (otp_body "123456") sample_world "s3cret" alice "123456" 1000000
           (otp_body "123456") "123456"
           (sample_reaches alice (or_introl eq_refl))
           sample_unique_ids eq_refl eq_refl eq_refl eq_refl
           ltac:(simpl; lia) eq_refl).
Defined.

(** Bob asks twice for a reset code: the first one, 123456, is refused. *)
Lemma latest_code_wins_witness :
  fst (POST_verification (P := sample_platform) sample_config sample_ambient_later
         "bob@example.com" "password-reset" (Some (otp_body "123456"))
         (snd (POST_forgot_password (P := sample_platform) sample_ambient_later
                 (Some (email_body "bob@example.com"))
                 (snd (POST_forgot_password (P := sample_platform) sample_ambient
                         (Some (email_body "bob@example.com")) sample_world)))))
  = invalid_otp_response.
Proof.
  apply (proj1 (latest_code_wins (P := sample_platform)
                  sample_config sample_ambient sample_ambient_later
                  sample_ambient_later "bob@example.com" "bob@example.com"
                  (email_body "bob@example.com") sample_world "s3cret" bob
                  "123456" "659755"
                  (sample_reaches bob (or_intror (or_introl eq_refl)))
                  sample_unique_ids eq_refl eq_refl eq_refl eq_refl)).
  discriminate.
Defined.

(** Bob resets his password and signs in with the new one. *)
Lemma reset_then_signin_witness :
  status
    (fst (POST_signin (P := sample_platform) sample_config sample_ambient_later
            (Some (signin_body "bob@example.com" "newsecret"))
            (snd (POST_verification (P := sample_platform) sample_config
                    sample_ambient "bob@example.com" "password-reset"
                    (Some (password_body "newsecret")) sample_world))))
  = 200.
Proof.
  apply (reset_then_signin (P := sample_platform)
           sample_config sample_ambient sample_ambient_later "bob@example.com"
           "password-reset" (password_body "newsecret")
           (signin_body "bob@example.com" "newsecret") sample_world "s3cret" bob
           "Expected string" "newsecret" "bob@example.com"
           (sample_reaches bob (or_intror (or_introl eq_refl)))
           sample_unique_ids eq_refl eq_refl eq_refl eq_refl eq_refl
           ltac:(discriminate) eq_refl).
Defined.

(** The code mailed to Bob is the one generated, and Bob is in the
    collection. *)
Lemma codes_go_to_their_account_witness :
  In (OTPEmail "bob@example.com" "123456" "password-reset") (outbox sample_world)
  \/ exists user,
       In user (users sample_world) /\
       "bob@example.com" = email user /\
       generateOTP sample_ambient = Some "123456" /\
       ("password-reset" = "signup" -> emailVerified user = false).
Proof.
  apply (codes_go_to_their_account (P := sample_platform)
           sample_config sample_ambient
           (ForgotPassword (Some (email_body "bob@example.com"))) sample_world).
  simpl. now left.
Defined.

(** The probes answer the same once every secret is blanked. *)
Lemma probes_disclose_no_secret_witness :
  fst (GET_me (P := sample_platform) sample_config sample_ambient
         (Some "jwt:64b7f0a1c2d3e4f5a6b7c8d1") sample_world)
  = fst (GET_me (P := sample_platform) sample_config sample_ambient
           (Some "jwt:64b7f0a1c2d3e4f5a6b7c8d1")
           (with_users (map redact (users sample_world)) sample_world)).
Proof.
  apply (probes_disclose_no_secret (P := sample_platform)
           (fun _ => "1970-01-01T00:00:00.000Z") sample_config sample_ambient
           (Some "jwt:64b7f0a1c2d3e4f5a6b7c8d1") sample_world
           (with_users (map redact (users sample_world)) sample_world)).
  reflexivity.
Defined.

(** A token that does not verify is cleared by /me. *)
Lemma me_clears_on_401_witness :
  (exists c,
      cookies
        (fst (GET_me (P := sample_platform) sample_config sample_ambient
                (Some "garbage") sample_world))
      = [c] /\
      c_name c = "token" /\ c_value c = "" /\ expires c = Some 0 /\
      maxAge c = None /\ path c = "/" /\ httpOnly c = true /\
      secure c = production sample_config /\ sameSite c = "lax")
  /\
  (exists c,
      cookies
        (fst (GET_me_on (P := sample_platform) false sample_config
                sample_ambient_later (Some "jwt:64b7f0a1c2d3e4f5a6b7c8d2") sample_world))
      = [c] /\
      c_name c = "token" /\ c_value c = "" /\ expires c = Some 0 /\
      maxAge c = None /\ path c = "/" /\ httpOnly c = true /\
      secure c = production sample_config /\ sameSite c = "lax").
Proof.
  split.
  - apply (proj1 (me_clears_on_401 (P := sample_platform) true
                    sample_config sample_ambient (Some "garbage") sample_world
                    "s3cret" eq_refl)).
    reflexivity.
  - apply (proj1 (proj2 (proj2 (me_clears_on_401 (P := sample_platform) false
                    sample_config sample_ambient_later (Some "jwt:64b7f0a1c2d3e4f5a6b7c8d2")
                    sample_world "s3cret" eq_refl)))).
    reflexivity.
Defined.

(** Bob deletes his account; his token then finds nothing. *)
Lemma deleted_account_is_gone_witness :
  status
    (fst (GET_me (P := sample_platform) sample_config sample_ambient_later
            (Some "jwt:64b7f0a1c2d3e4f5a6b7c8d2")
            (snd (DELETE_account (P := sample_platform) sample_config
                    sample_ambient (Some "jwt:64b7f0a1c2d3e4f5a6b7c8d2")
                    sample_world))))
  = 401.
Proof.
  apply (deleted_account_is_gone (P := sample_platform)
           (fun _ => "1970-01-01T00:00:00.000Z") sample_config sample_ambient
           sample_ambient_later "jwt:64b7f0a1c2d3e4f5a6b7c8d2" sample_world
           "s3cret"
           {| userId := Some "64b7f0a1c2d3e4f5a6b7c8d2";
              s_email := Some "someone@example.com";
              s_name := None; s_role := Some "user" |}
           eq_refl ltac:(discriminate) sample_unique_ids eq_refl eq_refl eq_refl
           eq_refl).
Defined.

(** A password sent to Bob's signup URL is handled as on the reset URL. *)
Lemma password_step_ignores_type_witness :
  POST_verification (P := sample_platform) sample_config sample_ambient
    "bob@example.com" "signup" (Some (password_body "newsecret")) sample_world
  = POST_verification (P := sample_platform) sample_config sample_ambient
      "bob@example.com" "password-reset" (Some (password_body "newsecret"))
      sample_world.
Proof.
  apply (password_step_ignores_type (P := sample_platform)
           sample_config sample_ambient "bob@example.com" "signup"
           "password-reset" (password_body "newsecret") sample_world
           "Expected string").
  reflexivity.
Defined.

(** Alice is verified by the sample session and stays so. *)
Lemma verified_stays_verified_witness :
  emailVerified bob = true /\
  exists v',
    findOne_id (_id bob)
      (users (run (P := sample_platform) sample_config
                [(sample_ambient,
                  ForgotPassword (Some (email_body "bob@example.com")))]
                sample_world))
    = Some v' /\
    otp v' = Some "123456" /\
    emailVerified v' = true.
Proof.
  split; [reflexivity|].
  eexists. split; [reflexivity|]. split; [reflexivity|].
  match goal with
  | |- emailVerified ?v' = true =>
      destruct (verified_stays_verified (P := sample_platform) sample_config
                  [(sample_ambient,
                    ForgotPassword (Some (email_body "bob@example.com")))]
                  sample_world v')
        as (v & Hin & Hid & Hkeeps)
  end.
  - right. left. reflexivity.
  - destruct Hin as [<-|[<-|[<-|[]]]].
    + discriminate Hid.
    + apply Hkeeps. reflexivity.
    + discriminate Hid.
Defined.

(** The cookie of Bob's sign-in is the session cookie of Bob, verified. *)
Lemma sessions_only_for_verified_accounts_witness :
  auth_cookie sample_config "jwt:64b7f0a1c2d3e4f5a6b7c8d2"
  = cleared_cookie sample_config \/
  exists secret account,
    defined_secret sample_config = Some secret /\
    In account
      (users (snd (handle (P := sample_platform) sample_config sample_ambient
                     (SignIn (Some (signin_body "bob@example.com" "builder1")))
                     sample_world))) /\
    emailVerified account = true /\
    auth_cookie sample_config "jwt:64b7f0a1c2d3e4f5a6b7c8d2"
    = auth_cookie sample_config
        (jwt_sign (Platform := sample_platform) (session_of account) secret "7d"
           (now sample_ambient)) /\
    session_cookie_of (P := sample_platform) sample_config secret
      (now sample_ambient) account
      (auth_cookie sample_config "jwt:64b7f0a1c2d3e4f5a6b7c8d2").
Proof.
  apply (sessions_only_for_verified_accounts (P := sample_platform)
           sample_config sample_ambient
           (SignIn (Some (signin_body "bob@example.com" "builder1")))
           sample_world
           (auth_cookie sample_config "jwt:64b7f0a1c2d3e4f5a6b7c8d2")
           sample_unique_ids).
  simpl. now left.
Defined.

(** An address that starts with [+] passes the validation of the body, and
    the sample database rejects the pattern made of it. *)
Lemma rejected_pattern_answers_500_witness :
  forgotPasswordSchema (P := sample_platform) (email_body "+bob@example.com")
  = success "+bob@example.com" /\
  POST_forgot_password (P := sample_platform) sample_ambient
    (Some (email_body "+bob@example.com")) sample_world
  = (NextResponse_json
       (error_body "Internal server error. Please try again later.") 500,
     sample_world) /\
  POST_signin (P := sample_platform) sample_config sample_ambient
    (Some (signin_body "+bob@example.com" "builder1")) sample_world
  = (NextResponse_json (error_body "Internal server error.") 500, sample_world).
Proof.
  split; [reflexivity|]. split.
  - apply (proj2 (proj2 (proj2
             (rejected_pattern_answers_500 (P := sample_platform)
                sample_config sample_ambient sample_world "+bob@example.com"
                eq_refl)))
             (email_body "+bob@example.com") eq_refl).
  - apply (proj1
             (rejected_pattern_answers_500 (P := sample_platform)
                sample_config sample_ambient sample_world "+bob@example.com"
                eq_refl)
             (signin_body "+bob@example.com" "builder1") "builder1" "s3cret"
             eq_refl eq_refl).
Defined.

